(** * The Glean lifecycle coordinator (glean-core/python/glean/glean.py)

    A shallow embedding of the [Glean] class and of [OnGleanEventsImpl]:
    the class attributes become a record, the methods become programs of a
    small state-and-exception monad over the process state, and every call
    that leaves the module (metrics core, [atexit], [ProcessDispatcher],
    [PingUploadWorker], the re-entrant lock) is written to a log together
    with the class attributes, the lock depth and the queue of unfinished
    jobs at the moment of the call.

    The [logging] library ([log.debug], [logging.basicConfig]) is not part
    of the model; the attribute [_simple_log_level] is. *)

From stdpp Require Import base strings gmap list.

(** ** Data *)

(** [pathlib.Path]: only [str(path)] and [path.exists()] are used. *)
Abbreviation Path := string.

(** Python exceptions that the module raises or lets through. *)
Inductive Exception : Type :=
  | TypeError (msg : string)
  | RuntimeError (msg : string)
  | AttributeError (attr : string)
  | InternalError (msg : string).

Inductive Outcome (A : Type) : Type :=
  | Returned (a : A)
  | Raised (e : Exception).
Arguments Returned {A} a.
Arguments Raised {A} e.

(** What a query of the metrics core comes back with: an answer, or a
    failure inside the core (which the binding raises as an internal
    error). *)
Inductive CoreAnswer (A : Type) : Type :=
  | Answered (a : A)
  | Panicked (msg : string).
Arguments Answered {A} a.
Arguments Panicked {A} msg.

(** Modelled from the spec: [glean.config.Configuration] is imported, not
    defined, by glean.py.  The spec's recognised options are the channel
    tag and the max-events cap; these are also the only two fields that
    [initialize] reads. *)
Record Configuration : Type := {
  channel : string;
  max_events : Z;
}.

(** [_uniffi.Datetime], [_uniffi.ClientInfoMetrics] and
    [_uniffi.InternalConfiguration], with the keyword arguments used in
    [initialize]. *)
Record Datetime : Type := {
  year : Z; month : Z; day : Z; hour : Z; minute : Z; second : Z;
  nanosecond : Z; offset_seconds : Z;
}.

Record ClientInfoMetrics : Type := {
  ci_app_build : string;
  ci_app_display_version : string;
  ci_app_build_date : Datetime;
  ci_channel : string;
  ci_architecture : string;
  ci_os_version : string;
  ci_locale : option string;
  ci_device_manufacturer : option string;
  ci_device_model : option string;
  ci_android_sdk_version : option string;
}.

Record InternalConfiguration : Type := {
  cfg_data_path : string;
  cfg_application_id : string;
  cfg_language_binding_name : string;
  cfg_upload_enabled : bool;
  cfg_max_events : Z;
  cfg_delay_ping_lifetime_io : bool;
  cfg_use_core_mps : bool;
  cfg_app_build : string;
}.

(** Modelled from the spec: the experiment record held by the metrics core
    (a branch label and a mapping of extra string metadata). *)
Record RecordedExperiment : Type := {
  branch : string;
  extra : gmap string string;
}.

(** The four methods of [OnGleanEvents] that the core may call. *)
Inductive Callback : Type :=
  | CbInitializeFinished
  | CbTriggerUpload
  | CbStartMetricsPingScheduler
  | CbCancelUploads.

Global Instance Callback_eq_dec : EqDecision Callback.
Proof. solve_decision. Defined.

(** The functions handed to [atexit]; this module registers only one. *)
Inductive ExitHandler : Type :=
  | HReset.

Global Instance ExitHandler_eq_dec : EqDecision ExitHandler.
Proof. solve_decision. Defined.

(** Jobs that this module hands to the dispatcher. *)
Inductive Job : Type :=
  | JUpload (testing_mode : bool)
  | JRmtree (path : Path).

Definition is_upload (j : Job) : bool :=
  match j with JUpload _ => true | JRmtree _ => false end.

(** Modelled from the spec: the Job Dispatcher ([ProcessDispatcher] is
    imported, not defined, by glean.py).  It executes submitted jobs one at
    a time, in submission order, and each submission returns a handle that
    can be waited on.  [pending] is the FIFO queue of jobs not yet
    finished, [completed] the jobs that finished, oldest first; a handle
    is the position of the job in submission order. *)
Record DispatcherState : Type := {
  pending : list Job;
  completed : list Job;
}.

(** The class attributes of [Glean].  An attribute that the class body only
    annotates (no value) is [None] until it is first assigned. *)
Record Glean : Type := {
  _initialized : bool;
  _init_finished : bool;
  _testing_mode : bool;
  _configuration : option Configuration;
  _data_dir : Path;
  _destroy_data_dir : bool;
  _upload_enabled : bool;
  _ping_type_queue : gset string;
  _application_id : option string;
  _application_version : option string;
  _application_build_id : option string;
  _simple_log_level : option Z;
}.

(** The calls that leave the module. *)
Inductive Event : Type :=
  | EvLockAcquire
  | EvLockRelease
  | EvAtexitRegister (h : ExitHandler)
  | EvAtexitUnregister (h : ExitHandler)
  | EvCoreInitialize (cfg : InternalConfiguration) (ci : ClientInfoMetrics)
  | EvCallback (cb : Callback)
  | EvCoreDestroy (clear_stores : bool)
  | EvCoreSetTestMode (enabled : bool)
  | EvCoreSetUploadEnabled (enabled : bool)
  | EvCoreSetExperimentActive (id br : string) (ex : gmap string string)
  | EvCoreSetExperimentInactive (id : string)
  | EvCoreGetExperimentData (id : string)
  | EvCoreHandleClientActive
  | EvCoreHandleClientInactive
  | EvUploadProcess (testing_mode : bool)
  | EvWaitForLastProcess
  | EvDispatch (j : Job) (handle : nat)
  | EvWait (handle : nat).

(** One line of the log: the call, and what the class attributes, the
    recursion level of [_thread_lock] and the queue of unfinished jobs were
    when it was made. *)
Record Entry : Type := {
  at_glean : Glean;
  at_lock : nat;
  at_pending : list Job;
  ev : Event;
}.

(** The process: class attributes, the re-entrant lock, the [atexit]
    registry, the dispatcher, the directories that exist, and the log. *)
Record World : Type := {
  glean : Glean;
  lock_depth : nat;
  atexit_registry : list ExitHandler;
  dispatcher : DispatcherState;
  fs : gset Path;
  trace : list Entry;
}.

(** ** Attribute assignment *)

Definition set_initialized (b : bool) (g : Glean) : Glean :=
  {| _initialized := b; _init_finished := _init_finished g;
     _testing_mode := _testing_mode g; _configuration := _configuration g;
     _data_dir := _data_dir g; _destroy_data_dir := _destroy_data_dir g;
     _upload_enabled := _upload_enabled g;
     _ping_type_queue := _ping_type_queue g;
     _application_id := _application_id g;
     _application_version := _application_version g;
     _application_build_id := _application_build_id g;
     _simple_log_level := _simple_log_level g |}.

Definition set_init_finished (b : bool) (g : Glean) : Glean :=
  {| _initialized := _initialized g; _init_finished := b;
     _testing_mode := _testing_mode g; _configuration := _configuration g;
     _data_dir := _data_dir g; _destroy_data_dir := _destroy_data_dir g;
     _upload_enabled := _upload_enabled g;
     _ping_type_queue := _ping_type_queue g;
     _application_id := _application_id g;
     _application_version := _application_version g;
     _application_build_id := _application_build_id g;
     _simple_log_level := _simple_log_level g |}.

Definition set_testing_mode (b : bool) (g : Glean) : Glean :=
  {| _initialized := _initialized g; _init_finished := _init_finished g;
     _testing_mode := b; _configuration := _configuration g;
     _data_dir := _data_dir g; _destroy_data_dir := _destroy_data_dir g;
     _upload_enabled := _upload_enabled g;
     _ping_type_queue := _ping_type_queue g;
     _application_id := _application_id g;
     _application_version := _application_version g;
     _application_build_id := _application_build_id g;
     _simple_log_level := _simple_log_level g |}.

Definition set_configuration (c : Configuration) (g : Glean) : Glean :=
  {| _initialized := _initialized g; _init_finished := _init_finished g;
     _testing_mode := _testing_mode g; _configuration := Some c;
     _data_dir := _data_dir g; _destroy_data_dir := _destroy_data_dir g;
     _upload_enabled := _upload_enabled g;
     _ping_type_queue := _ping_type_queue g;
     _application_id := _application_id g;
     _application_version := _application_version g;
     _application_build_id := _application_build_id g;
     _simple_log_level := _simple_log_level g |}.

Definition set_data_dir (p : Path) (g : Glean) : Glean :=
  {| _initialized := _initialized g; _init_finished := _init_finished g;
     _testing_mode := _testing_mode g; _configuration := _configuration g;
     _data_dir := p; _destroy_data_dir := _destroy_data_dir g;
     _upload_enabled := _upload_enabled g;
     _ping_type_queue := _ping_type_queue g;
     _application_id := _application_id g;
     _application_version := _application_version g;
     _application_build_id := _application_build_id g;
     _simple_log_level := _simple_log_level g |}.

Definition set_destroy_data_dir (b : bool) (g : Glean) : Glean :=
  {| _initialized := _initialized g; _init_finished := _init_finished g;
     _testing_mode := _testing_mode g; _configuration := _configuration g;
     _data_dir := _data_dir g; _destroy_data_dir := b;
     _upload_enabled := _upload_enabled g;
     _ping_type_queue := _ping_type_queue g;
     _application_id := _application_id g;
     _application_version := _application_version g;
     _application_build_id := _application_build_id g;
     _simple_log_level := _simple_log_level g |}.

Definition set_application_id (a : string) (g : Glean) : Glean :=
  {| _initialized := _initialized g; _init_finished := _init_finished g;
     _testing_mode := _testing_mode g; _configuration := _configuration g;
     _data_dir := _data_dir g; _destroy_data_dir := _destroy_data_dir g;
     _upload_enabled := _upload_enabled g;
     _ping_type_queue := _ping_type_queue g;
     _application_id := Some a;
     _application_version := _application_version g;
     _application_build_id := _application_build_id g;
     _simple_log_level := _simple_log_level g |}.

Definition set_application_version (a : string) (g : Glean) : Glean :=
  {| _initialized := _initialized g; _init_finished := _init_finished g;
     _testing_mode := _testing_mode g; _configuration := _configuration g;
     _data_dir := _data_dir g; _destroy_data_dir := _destroy_data_dir g;
     _upload_enabled := _upload_enabled g;
     _ping_type_queue := _ping_type_queue g;
     _application_id := _application_id g;
     _application_version := Some a;
     _application_build_id := _application_build_id g;
     _simple_log_level := _simple_log_level g |}.

Definition set_application_build_id (a : string) (g : Glean) : Glean :=
  {| _initialized := _initialized g; _init_finished := _init_finished g;
     _testing_mode := _testing_mode g; _configuration := _configuration g;
     _data_dir := _data_dir g; _destroy_data_dir := _destroy_data_dir g;
     _upload_enabled := _upload_enabled g;
     _ping_type_queue := _ping_type_queue g;
     _application_id := _application_id g;
     _application_version := _application_version g;
     _application_build_id := Some a;
     _simple_log_level := _simple_log_level g |}.

Definition set_simple_log_level (l : Z) (g : Glean) : Glean :=
  {| _initialized := _initialized g; _init_finished := _init_finished g;
     _testing_mode := _testing_mode g; _configuration := _configuration g;
     _data_dir := _data_dir g; _destroy_data_dir := _destroy_data_dir g;
     _upload_enabled := _upload_enabled g;
     _ping_type_queue := _ping_type_queue g;
     _application_id := _application_id g;
     _application_version := _application_version g;
     _application_build_id := _application_build_id g;
     _simple_log_level := Some l |}.

Definition with_glean (f : Glean -> Glean) (w : World) : World :=
  {| glean := f (glean w); lock_depth := lock_depth w;
     atexit_registry := atexit_registry w; dispatcher := dispatcher w;
     fs := fs w; trace := trace w |}.

Definition with_lock_depth (n : nat) (w : World) : World :=
  {| glean := glean w; lock_depth := n;
     atexit_registry := atexit_registry w; dispatcher := dispatcher w;
     fs := fs w; trace := trace w |}.

Definition with_atexit (r : list ExitHandler) (w : World) : World :=
  {| glean := glean w; lock_depth := lock_depth w;
     atexit_registry := r; dispatcher := dispatcher w;
     fs := fs w; trace := trace w |}.

Definition with_dispatcher (d : DispatcherState) (f : gset Path)
    (w : World) : World :=
  {| glean := glean w; lock_depth := lock_depth w;
     atexit_registry := atexit_registry w; dispatcher := d;
     fs := f; trace := trace w |}.

Definition entry (w : World) (e : Event) : Entry :=
  {| at_glean := glean w; at_lock := lock_depth w;
     at_pending := pending (dispatcher w); ev := e |}.

Definition log_call (e : Event) (w : World) : World :=
  {| glean := glean w; lock_depth := lock_depth w;
     atexit_registry := atexit_registry w; dispatcher := dispatcher w;
     fs := fs w; trace := trace w ++ [entry w e] |}.

(** ** Programs over the process state *)

Definition M (A : Type) : Type := World -> Outcome A * World.

Global Instance M_ret : MRet M := fun A a w => (Returned a, w).

Global Instance M_bind : MBind M := fun A B k m w =>
  match m w with
  | (Returned a, w') => k a w'
  | (Raised e, w') => (Raised e, w')
  end.

Definition raise {A : Type} (e : Exception) : M A :=
  fun w => (Raised e, w).

Definition read {A : Type} (f : World -> A) : M A :=
  fun w => (Returned (f w), w).

Definition update (f : World -> World) : M unit :=
  fun w => (Returned tt, f w).

(** A call that leaves the module is written to the log. *)
Definition call (e : Event) : M unit := update (log_call e).

(** [cls.attr = value] *)
Definition assign (f : Glean -> Glean) : M unit := update (with_glean f).

(** [cls.attr] for an attribute that may not have been assigned yet. *)
Definition attribute {A : Type} (name : string) (f : Glean -> option A)
    : M A :=
  fun w =>
    match f (glean w) with
    | Some a => (Returned a, w)
    | None => (Raised (AttributeError name), w)
    end.

(** [try: body finally: cleanup] *)
Definition finally {A : Type} (body : M A) (cleanup : M unit) : M A :=
  fun w =>
    let '(r, w1) := body w in
    let '(_, w2) := cleanup w1 in
    (r, w2).

(** [threading.RLock]: the thread that runs the program may take the lock
    again; [lock_depth] is its recursion level. *)
Definition acquire : M unit :=
  update (fun w => with_lock_depth (S (lock_depth w)) w) ;;
  call EvLockAcquire.

Definition release : M unit :=
  call EvLockRelease ;;
  update (fun w => with_lock_depth (pred (lock_depth w)) w).

(** [with cls._thread_lock: body] *)
Definition with_thread_lock {A : Type} (body : M A) : M A :=
  acquire ;; finally body release.

(** [atexit.register] appends; [atexit.unregister] removes every
    registration of the function. *)
Definition atexit_register (h : ExitHandler) : M unit :=
  call (EvAtexitRegister h) ;;
  update (fun w => with_atexit (atexit_registry w ++ [h]) w).

Definition atexit_unregister (h : ExitHandler) : M unit :=
  call (EvAtexitUnregister h) ;;
  update (fun w => with_atexit (filter (fun x => x <> h) (atexit_registry w)) w).

(** [path.exists()] *)
Definition path_exists (p : Path) : M bool :=
  read (fun w => bool_decide (p ∈ fs w)).

(** ** The dispatcher *)

(** [q] is [p] or lies below it. *)
Definition under (p q : Path) : bool :=
  String.eqb p q || String.prefix (p ++ "/") q.

(** [shutil.rmtree(path)]: the directory and everything below it go. *)
Definition _rmtree (path : Path) (f : gset Path) : gset Path :=
  filter (fun q => under path q = false) f.

(** Modelled from the spec: what a job does to the directories when it
    runs.  An upload pass ([runUploadPass(testingMode)]) reads the data
    directory; encoding and transport are outside the spec, and the pass
    is taken to leave the set of directories as it is. *)
Definition run_job (f : gset Path) (j : Job) : gset Path :=
  match j with
  | JUpload _ => f
  | JRmtree p => _rmtree p f
  end.

Definition run_jobs (js : list Job) (f : gset Path) : gset Path :=
  foldl run_job f js.

(** Modelled from the spec: the first [n] pending jobs run to completion,
    in submission order. *)
Definition finish (n : nat) (d : DispatcherState) (f : gset Path)
    : DispatcherState * gset Path :=
  ({| pending := drop n (pending d);
      completed := completed d ++ take n (pending d) |},
   run_jobs (take n (pending d)) f).

(** Modelled from the spec: [submit(job) -> Handle]. *)
Definition submit (j : Job) (d : DispatcherState) : nat * DispatcherState :=
  (length (completed d) + length (pending d),
   {| pending := pending d ++ [j]; completed := completed d |}).

Module ProcessDispatcher.

(** Modelled from the spec: blocks until the last job submitted has
    completed; the queue is FIFO, so every pending job has completed
    by then. *)
Definition _wait_for_last_process : M unit :=
  call EvWaitForLastProcess ;;
  update (fun w =>
    let '(d, f) := finish (length (pending (dispatcher w)))
                          (dispatcher w) (fs w) in
    with_dispatcher d f w).

(** Modelled from the spec: [dispatch(func, args)] submits the job and
    returns its handle. *)
Definition dispatch (j : Job) : M nat :=
  fun w =>
    let '(h, d) := submit j (dispatcher w) in
    (Returned h, with_dispatcher d (fs w) (log_call (EvDispatch j h) w)).

(** Modelled from the spec: [handle.wait()] blocks until the job of the
    handle has completed; the jobs submitted before it complete first. *)
Definition wait (h : nat) : M unit :=
  call (EvWait h) ;;
  update (fun w =>
    let '(d, f) := finish (S h - length (completed (dispatcher w)))
                          (dispatcher w) (fs w) in
    with_dispatcher d f w).

End ProcessDispatcher.

Module PingUploadWorker.

(** Modelled from the spec: [PingUploadWorker.process(testing_mode)]
    submits one upload pass, with the flag it is given, to the Job
    Dispatcher. *)
Definition process (testing_mode : bool) : M unit :=
  call (EvUploadProcess testing_mode) ;;
  _ ← ProcessDispatcher.dispatch (JUpload testing_mode);
  mret tt.

End PingUploadWorker.

(** ** The event bridge *)

Module OnGleanEventsImpl.

Definition on_initialize_finished : M unit :=
  assign (set_init_finished true).

Definition trigger_upload : M unit :=
  testing_mode ← read (fun w => _testing_mode (glean w));
  PingUploadWorker.process testing_mode.

Definition start_metrics_ping_scheduler : M unit := mret tt.

Definition cancel_uploads : M unit := mret tt.

End OnGleanEventsImpl.

(** The core invokes a method of the callback object. *)
Definition invoke (cb : Callback) : M unit :=
  call (EvCallback cb) ;;
  match cb with
  | CbInitializeFinished => OnGleanEventsImpl.on_initialize_finished
  | CbTriggerUpload => OnGleanEventsImpl.trigger_upload
  | CbStartMetricsPingScheduler => OnGleanEventsImpl.start_metrics_ping_scheduler
  | CbCancelUploads => OnGleanEventsImpl.cancel_uploads
  end.

Fixpoint invoke_all (cbs : list Callback) : M unit :=
  match cbs with
  | [] => mret tt
  | cb :: rest => invoke cb ;; invoke_all rest
  end.

(** ** The coordinator *)

Section Coordinator.

(** [Configuration()], the configuration with every option at its
    default; the class is not part of glean.py. *)
Variable Configuration_default : Configuration.

(** The metrics core is a black box.  [core_sync cfg ci] lists the
    callbacks that [glean_initialize(cfg, ci, callbacks)] invokes on the
    caller's stack before it returns, and [core_experiment_data id] is
    what the core answers to [glean_test_get_experiment_data(id)]: a
    record, [None], or a failure inside the core.

    [glean_initialize] is taken to return.  A failure inside it would
    leave [initialize] by an exception at that point, after the exit hook
    is registered and the session configuration stored and before
    [_initialized] is set; what is proved of an accepted [initialize] is
    proved of a call whose core call runs through. *)
Variable core_sync : InternalConfiguration -> ClientInfoMetrics -> list Callback.
Variable core_experiment_data : string -> CoreAnswer (option RecordedExperiment).

Definition glean_initialize (cfg : InternalConfiguration)
    (client_info : ClientInfoMetrics) : M unit :=
  call (EvCoreInitialize cfg client_info) ;;
  invoke_all (core_sync cfg client_info).

Definition glean_test_get_experiment_data (experiment_id : string)
    : M (option RecordedExperiment) :=
  call (EvCoreGetExperimentData experiment_id) ;;
  match core_experiment_data experiment_id with
  | Answered data => mret data
  | Panicked msg => raise (InternalError msg)
  end.

Definition is_initialized : M bool :=
  read (fun w => _initialized (glean w)).

(** The build date that [initialize] passes until the caller can. *)
Definition epoch : Datetime :=
  {| year := 1970; month := 1; day := 1; hour := 0; minute := 0;
     second := 0; nanosecond := 0; offset_seconds := 0 |}.

(** The part of [initialize] inside [with cls._thread_lock].  [None] is
    the early [return]; otherwise the value of the local [configuration]
    and of [data_dir] when the block ends. *)
Definition initialize_locked (application_id : string)
    (application_version : option string)
    (configuration : option Configuration) (data_dir : option Path)
    (application_build_id : option string) : M (option Configuration) :=
  initialized ← is_initialized;
  if initialized : bool then mret None
  else
    atexit_register HReset ;;
    let configuration :=
      match configuration with
      | None => Configuration_default
      | Some c => c
      end in
    match data_dir with
    | None => raise (TypeError "data_dir must be provided")
    | Some data_dir =>
        assign (set_data_dir data_dir) ;;
        assign (set_destroy_data_dir false) ;;
        assign (set_configuration configuration) ;;
        assign (set_application_id application_id) ;;
        match application_version with
        | None => assign (set_application_version "Unknown")
        | Some v => assign (set_application_version v)
        end ;;
        match application_build_id with
        | None => assign (set_application_build_id "Unknown")
        | Some b => assign (set_application_build_id b)
        end ;;
        mret (Some configuration)
    end.

Definition initialize (application_id : string)
    (application_version : option string) (upload_enabled : bool)
    (configuration : option Configuration) (data_dir : option Path)
    (application_build_id : option string) (log_level : option Z)
    : M unit :=
  match log_level with
  | Some l => assign (set_simple_log_level l)
  | None => mret tt
  end ;;
  locked ← with_thread_lock
             (initialize_locked application_id application_version
                configuration data_dir application_build_id);
  match locked with
  | None => mret tt
  | Some configuration =>
      let dt := epoch in
      app_build ← attribute "_application_build_id" _application_build_id;
      app_display_version ←
        attribute "_application_version" _application_version;
      let client_info :=
        {| ci_app_build := app_build;
           ci_app_display_version := app_display_version;
           ci_app_build_date := dt;
           ci_channel := channel configuration;
           ci_architecture := "Unknown";
           ci_os_version := "Unknown";
           ci_locale := None;
           ci_device_manufacturer := None;
           ci_device_model := None;
           ci_android_sdk_version := None |} in
      data_path ← read (fun w => _data_dir (glean w));
      app_build' ← attribute "_application_build_id" _application_build_id;
      let cfg :=
        {| cfg_data_path := data_path;
           cfg_application_id := application_id;
           cfg_language_binding_name := "Python";
           cfg_upload_enabled := upload_enabled;
           cfg_max_events := max_events configuration;
           cfg_delay_ping_lifetime_io := false;
           cfg_use_core_mps := false;
           cfg_app_build := app_build' |} in
      glean_initialize cfg client_info ;;
      assign (set_initialized true)
  end.

(** [tmp] is the name that [tempfile.TemporaryDirectory()] picked; the
    object is dropped at once, only the name is kept. *)
Definition _initialize_with_tempdir_for_testing (tmp : Path)
    (application_id : string) (application_version : option string)
    (upload_enabled : bool) (configuration : option Configuration)
    (application_build_id : option string) : M unit :=
  let actual_data_dir := tmp in
  initialize application_id application_version upload_enabled
    configuration (Some actual_data_dir) application_build_id None ;;
  assign (set_destroy_data_dir true).

Definition configuration : M Configuration :=
  attribute "_configuration" _configuration.

(** [cls._destroy_data_dir and cls._data_dir.exists()] *)
Definition owns_existing_data_dir : M bool :=
  destroy ← read (fun w => _destroy_data_dir (glean w));
  if destroy : bool then
    data_dir ← read (fun w => _data_dir (glean w));
    path_exists data_dir
  else mret false.

Definition _reset : M unit :=
  wait_first ← owns_existing_data_dir;
  (if wait_first : bool then ProcessDispatcher._wait_for_last_process
   else mret tt) ;;
  call (EvCoreDestroy false) ;;
  call (EvCoreSetTestMode false) ;;
  assign (set_init_finished false) ;;
  assign (set_initialized false) ;;
  assign (set_testing_mode false) ;;
  atexit_unregister HReset ;;
  remove ← owns_existing_data_dir;
  if remove : bool then
    data_dir ← read (fun w => _data_dir (glean w));
    p ← ProcessDispatcher.dispatch (JRmtree data_dir);
    ProcessDispatcher.wait p
  else mret tt.

Definition set_upload_enabled (enabled : bool) : M unit :=
  call (EvCoreSetUploadEnabled enabled).

Definition set_experiment_active (experiment_id br : string)
    (ex : option (gmap string string)) : M unit :=
  let map := match ex with None => ∅ | Some m => m end in
  call (EvCoreSetExperimentActive experiment_id br map).

Definition set_experiment_inactive (experiment_id : string) : M unit :=
  call (EvCoreSetExperimentInactive experiment_id).

Definition test_is_experiment_active (experiment_id : string) : M bool :=
  data ← glean_test_get_experiment_data experiment_id;
  mret (match data with Some _ => true | None => false end).

Definition test_get_experiment_data (experiment_id : string)
    : M RecordedExperiment :=
  data ← glean_test_get_experiment_data experiment_id;
  match data with
  | Some d => mret d
  | None => raise (RuntimeError "Experiment data is not set")
  end.

Definition handle_client_active : M unit :=
  call EvCoreHandleClientActive.

Definition handle_client_inactive : M unit :=
  call EvCoreHandleClientInactive.

(** ** Sessions driven from outside

    What the host application and the surroundings can do to the
    process: the host calls the public methods (exceptions go back to
    the host, which may carry on), the exit hook or a test runs
    [_reset], the core invokes a callback at a time of its choosing, the
    dispatcher finishes its oldest job in the background, a directory
    comes into being (the core creating its data directory).  A test may
    also start the coordinator on a temporary directory and write the
    testing-mode flag. *)
Inductive Step : Type :=
  | DoInitialize (application_id : string)
      (application_version : option string) (upload_enabled : bool)
      (configuration : option Configuration) (data_dir : option Path)
      (application_build_id : option string) (log_level : option Z)
  | DoIsInitialized
  | DoConfiguration
  | DoSetUploadEnabled (enabled : bool)
  | DoSetExperimentActive (experiment_id br : string)
      (ex : option (gmap string string))
  | DoSetExperimentInactive (experiment_id : string)
  | DoTestIsExperimentActive (experiment_id : string)
  | DoTestGetExperimentData (experiment_id : string)
  | DoHandleClientActive
  | DoHandleClientInactive
  | DoReset
  | CoreInvokes (cb : Callback)
  | JobFinishes
  | DirectoryAppears (p : Path)
  | DoInitializeWithTempdirForTesting (tmp : Path) (application_id : string)
      (application_version : option string) (upload_enabled : bool)
      (configuration : option Configuration)
      (application_build_id : option string)
  | TestSetsTestingMode (enabled : bool).

Definition step (w : World) (s : Step) : World :=
  match s with
  | DoInitialize application_id application_version upload_enabled
      configuration data_dir application_build_id log_level =>
      (initialize application_id application_version upload_enabled
         configuration data_dir application_build_id log_level w).2
  | DoIsInitialized => (is_initialized w).2
  | DoConfiguration => (configuration w).2
  | DoSetUploadEnabled enabled => (set_upload_enabled enabled w).2
  | DoSetExperimentActive experiment_id br ex =>
      (set_experiment_active experiment_id br ex w).2
  | DoSetExperimentInactive experiment_id =>
      (set_experiment_inactive experiment_id w).2
  | DoTestIsExperimentActive experiment_id =>
      (test_is_experiment_active experiment_id w).2
  | DoTestGetExperimentData experiment_id =>
      (test_get_experiment_data experiment_id w).2
  | DoHandleClientActive => (handle_client_active w).2
  | DoHandleClientInactive => (handle_client_inactive w).2
  | DoReset => (_reset w).2
  | CoreInvokes cb => (invoke cb w).2
  | JobFinishes =>
      let '(d, f) := finish 1 (dispatcher w) (fs w) in
      with_dispatcher d f w
  | DirectoryAppears p => with_dispatcher (dispatcher w) ({[p]} ∪ fs w) w
  | DoInitializeWithTempdirForTesting tmp application_id application_version
      upload_enabled configuration application_build_id =>
      (_initialize_with_tempdir_for_testing tmp application_id
         application_version upload_enabled configuration
         application_build_id w).2
  | TestSetsTestingMode enabled => with_glean (set_testing_mode enabled) w
  end.

(** The steps that are not those of a test. *)
Definition is_public (s : Step) : bool :=
  match s with
  | DoInitializeWithTempdirForTesting _ _ _ _ _ _ => false
  | TestSetsTestingMode _ => false
  | _ => true
  end.

Definition session (steps : list Step) (w : World) : World :=
  foldl step w steps.

(** ** The process before the first call *)

(** The class attributes as the class body sets them; [str(Path())] is
    the current directory. *)
Definition Glean_class : Glean :=
  {| _initialized := false; _init_finished := false;
     _testing_mode := false; _configuration := None;
     _data_dir := "."; _destroy_data_dir := false;
     _upload_enabled := true; _ping_type_queue := ∅;
     _application_id := None; _application_version := None;
     _application_build_id := None; _simple_log_level := None |}.

Definition process_start (dirs : gset Path) : World :=
  {| glean := Glean_class; lock_depth := 0; atexit_registry := [];
     dispatcher := {| pending := []; completed := [] |};
     fs := dirs; trace := [] |}.

(** ** Vocabulary of the statements *)

(** The stored session configuration. *)
Definition session_config (g : Glean)
    : Path * option Configuration * option string * option string
      * option string :=
  (_data_dir g, _configuration g, _application_id g,
   _application_version g, _application_build_id g).

(** The flags of the coordinator. *)
Definition flags (g : Glean) : bool * bool * bool * bool * bool :=
  (_initialized g, _init_finished g, _testing_mode g, _destroy_data_dir g,
   _upload_enabled g).

Definition is_core_call (e : Event) : bool :=
  match e with
  | EvCoreInitialize _ _ | EvCoreDestroy _ | EvCoreSetTestMode _
  | EvCoreSetUploadEnabled _ | EvCoreSetExperimentActive _ _ _
  | EvCoreSetExperimentInactive _ | EvCoreGetExperimentData _
  | EvCoreHandleClientActive | EvCoreHandleClientInactive => true
  | _ => false
  end.

Definition is_core_initialize (e : Event) : bool :=
  match e with EvCoreInitialize _ _ => true | _ => false end.

(** Calls that reach the Job Dispatcher. *)
Definition is_dispatcher_call (e : Event) : bool :=
  match e with
  | EvWaitForLastProcess | EvDispatch _ _ | EvWait _ => true
  | _ => false
  end.

(** A log line without the snapshot of the attributes. *)
Definition lock_view (e : Entry) : nat * Event := (at_lock e, ev e).

(** [cls._destroy_data_dir and cls._data_dir.exists()] as a value. *)
Definition owned (w : World) : bool :=
  _destroy_data_dir (glean w) && bool_decide (_data_dir (glean w) ∈ fs w).

(** Every job still queued is an upload pass. *)
Definition uploads_only (w : World) : Prop :=
  Forall (fun j => is_upload j = true) (pending (dispatcher w)).

(** The three flags that [_reset] writes, cleared. *)
Definition cleared (g : Glean) : Glean :=
  set_testing_mode false (set_initialized false (set_init_finished false g)).

(** The class attributes when the [with] block of an accepted
    [initialize] ends. *)
Definition captured (application_id : string)
    (application_version : option string)
    (configuration : option Configuration) (data_dir : Path)
    (application_build_id : option string) (log_level : option Z)
    (g : Glean) : Glean :=
  {| _initialized := _initialized g; _init_finished := _init_finished g;
     _testing_mode := _testing_mode g;
     _configuration := Some (default Configuration_default configuration);
     _data_dir := data_dir; _destroy_data_dir := false;
     _upload_enabled := _upload_enabled g;
     _ping_type_queue := _ping_type_queue g;
     _application_id := Some application_id;
     _application_version := Some (default "Unknown" application_version);
     _application_build_id :=
       Some (default "Unknown" application_build_id);
     _simple_log_level :=
       match log_level with
       | Some l => Some l
       | None => _simple_log_level g
       end |}.

(** The class attributes after the first statement of [initialize]. *)
Definition with_log_level (log_level : option Z) (g : Glean) : Glean :=
  match log_level with
  | Some l => set_simple_log_level l g
  | None => g
  end.

(** Kinds of steps. *)
Definition is_reset (s : Step) : bool :=
  match s with DoReset => true | _ => false end.

Definition calls_initialize (s : Step) : bool :=
  match s with
  | DoInitialize _ _ _ _ _ _ _ => true
  | DoInitializeWithTempdirForTesting _ _ _ _ _ _ => true
  | _ => false
  end.

(** The call of [initialize] that a step makes, if it makes one, returns
    rather than raises. *)
Definition initialize_returns (w : World) (s : Step) : bool :=
  match s with
  | DoInitialize application_id application_version upload_enabled
      configuration data_dir application_build_id log_level =>
      match (initialize application_id application_version upload_enabled
               configuration data_dir application_build_id log_level w).1
      with
      | Returned _ => true
      | Raised _ => false
      end
  | DoInitializeWithTempdirForTesting tmp application_id application_version
      upload_enabled configuration application_build_id =>
      match (_initialize_with_tempdir_for_testing tmp application_id
               application_version upload_enabled configuration
               application_build_id w).1
      with
      | Returned _ => true
      | Raised _ => false
      end
  | _ => true
  end.

(** Every call of [initialize] in the session has returned. *)
Fixpoint initialize_always_returned (steps : list Step) (w : World) : bool :=
  match steps with
  | [] => true
  | s :: rest =>
      initialize_returns w s && initialize_always_returned rest (step w s)
  end.

(** The call that a method which only forwards to the core passes on. *)
Definition forwarded (s : Step) : option Event :=
  match s with
  | DoSetUploadEnabled enabled => Some (EvCoreSetUploadEnabled enabled)
  | DoSetExperimentActive experiment_id br ex =>
      Some (EvCoreSetExperimentActive experiment_id br (default ∅ ex))
  | DoSetExperimentInactive experiment_id =>
      Some (EvCoreSetExperimentInactive experiment_id)
  | DoHandleClientActive => Some EvCoreHandleClientActive
  | DoHandleClientInactive => Some EvCoreHandleClientInactive
  | _ => None
  end.

(** ** Concrete processes, for the examples *)

Definition example_configuration : Configuration :=
  {| channel := "release"; max_events := 500 |}.

(** A core that asks for an upload and reports the end of its
    initialisation before [glean_initialize] returns. *)
Definition example_core_sync (cfg : InternalConfiguration)
    (ci : ClientInfoMetrics) : list Callback :=
  [CbTriggerUpload; CbInitializeFinished].

(** A coordinator that a host has initialised for the directory "/data". *)
Definition example_ready : World :=
  {| glean :=
       {| _initialized := true; _init_finished := true;
          _testing_mode := false;
          _configuration := Some example_configuration;
          _data_dir := "/data"; _destroy_data_dir := false;
          _upload_enabled := true; _ping_type_queue := ∅;
          _application_id := Some "app";
          _application_version := Some "1.0";
          _application_build_id := Some "Unknown";
          _simple_log_level := None |};
     lock_depth := 0; atexit_registry := [HReset];
     dispatcher := {| pending := [JUpload false]; completed := [] |};
     fs := {["/data"]}; trace := [] |}.

(** ** Running a program by hand *)

(** Updates of the process and of the class attributes unfold as soon as
    they are applied, so that a state is always read off a record. *)
Arguments with_glean f w /.
Arguments with_lock_depth n w /.
Arguments with_atexit r w /.
Arguments with_dispatcher d f w /.
Arguments log_call e w /.
Arguments entry w e /.
Arguments set_initialized b g /.
Arguments set_init_finished b g /.
Arguments set_testing_mode b g /.
Arguments set_configuration c g /.
Arguments set_data_dir p g /.
Arguments set_destroy_data_dir b g /.
Arguments set_application_id a g /.
Arguments set_application_version a g /.
Arguments set_application_build_id a g /.
Arguments set_simple_log_level l g /.

Ltac unfold_program :=
  cbv beta iota delta
    [mbind M_bind mret M_ret raise read update call assign attribute
     finally acquire release with_thread_lock atexit_register
     atexit_unregister path_exists is_initialized
     ProcessDispatcher._wait_for_last_process ProcessDispatcher.dispatch
     ProcessDispatcher.wait PingUploadWorker.process
     OnGleanEventsImpl.on_initialize_finished
     OnGleanEventsImpl.trigger_upload
     OnGleanEventsImpl.start_metrics_ping_scheduler
     OnGleanEventsImpl.cancel_uploads].

Ltac run := unfold_program; cbn.

Ltac flatten_log := rewrite <- ?app_assoc; cbn [app].

(** ** The event bridge *)

(** C7: every invocation of [trigger_upload] hands exactly one upload pass
    to the Job Dispatcher, and the pass carries the testing-mode flag as it
    is at the time of the call ([true] when the flag is [true], [false]
    otherwise); nothing else in the process changes. *)
Theorem trigger_upload_submits_one_pass (w : World) :
  exists w' new,
    OnGleanEventsImpl.trigger_upload w = (Returned tt, w') /\
    pending (dispatcher w') =
      pending (dispatcher w) ++ [JUpload (_testing_mode (glean w))] /\
    completed (dispatcher w') = completed (dispatcher w) /\
    trace w' = trace w ++ new /\
    map ev new =
      [EvUploadProcess (_testing_mode (glean w));
       EvDispatch (JUpload (_testing_mode (glean w)))
         (length (completed (dispatcher w))
          + length (pending (dispatcher w)))] /\
    glean w' = glean w /\ fs w' = fs w /\
    atexit_registry w' = atexit_registry w.
Proof.
  do 2 eexists. split; [run; reflexivity|]. cbn. flatten_log. done.
Qed.

(** What a callback may change: it appends to the log, outside the lock
    and without calling the core, it may submit jobs, and of the class
    attributes it writes [_init_finished] only. *)
Record callbacks_frame (w w' : World) (new : list Entry) : Prop := {
  cf_trace : trace w' = trace w ++ new;
  cf_entries :
    Forall (fun e => at_lock e = lock_depth w /\ is_core_call (ev e) = false)
      new;
  cf_lock : lock_depth w' = lock_depth w;
  cf_atexit : atexit_registry w' = atexit_registry w;
  cf_fs : fs w' = fs w;
  cf_completed : completed (dispatcher w') = completed (dispatcher w);
  cf_glean :
    set_init_finished false (glean w') = set_init_finished false (glean w);
  cf_uploads : uploads_only w -> uploads_only w';
}.

Lemma callbacks_frame_refl (w : World) : callbacks_frame w w [].
Proof. split; rewrite ?app_nil_r; auto. Qed.

Lemma callbacks_frame_trans (w1 w2 w3 : World) (new1 new2 : list Entry) :
  callbacks_frame w1 w2 new1 -> callbacks_frame w2 w3 new2 ->
  callbacks_frame w1 w3 (new1 ++ new2).
Proof.
  intros [T1 E1 L1 A1 F1 K1 G1 U1] [T2 E2 L2 A2 F2 K2 G2 U2]. split.
  - rewrite T2, T1. symmetry. apply app_assoc.
  - apply Forall_app. split; [exact E1|]. rewrite <- L1. exact E2.
  - congruence.
  - congruence.
  - congruence.
  - congruence.
  - congruence.
  - auto.
Qed.

Lemma invoke_frame (cb : Callback) (w : World) :
  exists w' new,
    invoke cb w = (Returned tt, w') /\ callbacks_frame w w' new /\
    EvCallback cb ∈ map ev new.
Proof.
  destruct cb; unfold invoke; run; do 2 eexists;
    (split; [reflexivity|]);
    (split; [split; unfold uploads_only; cbn; flatten_log|]);
    try reflexivity; try (repeat constructor; fail);
    try (intros U; try apply Forall_app; repeat constructor; exact U).
  all: cbn; apply elem_of_cons; left; reflexivity.
Qed.

Lemma invoke_all_frame (cbs : list Callback) (w : World) :
  exists w' new,
    invoke_all cbs w = (Returned tt, w') /\ callbacks_frame w w' new /\
    forall cb, cb ∈ cbs -> EvCallback cb ∈ map ev new.
Proof.
  revert w. induction cbs as [|cb rest IH]; intros w.
  - exists w, []. split; [reflexivity|]. split; [apply callbacks_frame_refl|].
    intros cb H. inversion H.
  - destruct (invoke_frame cb w) as (w1 & new1 & R1 & F1 & M1).
    destruct (IH w1) as (w2 & new2 & R2 & F2 & M2).
    exists w2, (new1 ++ new2). split.
    + cbn [invoke_all]. unfold mbind, M_bind. rewrite R1. exact R2.
    + split; [eapply callbacks_frame_trans; eassumption|].
      intros c Hc. rewrite map_app. apply elem_of_app.
      apply elem_of_cons in Hc as [->|Hc]; [left; exact M1|right; auto].
Qed.

(** ** Experiment queries *)

(** C8: [test_is_experiment_active(id)] returns [True] exactly when the
    core's experiment-data query returns a record for the id;
    [test_get_experiment_data(id)] returns the record that the core
    reports, and raises the "not set" [RuntimeError] exactly when the core
    reports none.  A failure inside the core comes out as an internal
    error, which is a different exception.  Each query is one round trip
    to the core. *)
Theorem experiment_queries (experiment_id : string) (w : World) :
  ((test_is_experiment_active experiment_id w).1 = Returned true <->
   exists r, core_experiment_data experiment_id = Answered (Some r)) /\
  (forall r,
     (test_get_experiment_data experiment_id w).1 = Returned r <->
     core_experiment_data experiment_id = Answered (Some r)) /\
  ((test_get_experiment_data experiment_id w).1 =
     Raised (RuntimeError "Experiment data is not set") <->
   core_experiment_data experiment_id = Answered None) /\
  (forall msg,
     (test_get_experiment_data experiment_id w).1 =
       Raised (InternalError msg) <->
     core_experiment_data experiment_id = Panicked msg) /\
  (test_is_experiment_active experiment_id w).2 =
    log_call (EvCoreGetExperimentData experiment_id) w /\
  (test_get_experiment_data experiment_id w).2 =
    log_call (EvCoreGetExperimentData experiment_id) w.
Proof.
  unfold test_is_experiment_active, test_get_experiment_data,
    glean_test_get_experiment_data.
  destruct (core_experiment_data experiment_id) as [[r|]|msg]; run;
    intuition (try discriminate; try congruence; eauto).
  all: match goal with H : ex _ |- _ => destruct H; discriminate end.
Qed.

(** ** [initialize] *)

(** A call on an initialised coordinator: the process afterwards. *)
Lemma initialize_again (application_id : string)
    (application_version : option string) (upload_enabled : bool)
    (configuration : option Configuration) (data_dir : option Path)
    (application_build_id : option string) (log_level : option Z)
    (w : World) :
  _initialized (glean w) = true ->
  let g := with_log_level log_level (glean w) in
  let line e :=
    {| at_glean := g; at_lock := S (lock_depth w);
       at_pending := pending (dispatcher w); ev := e |} in
  initialize application_id application_version upload_enabled
    configuration data_dir application_build_id log_level w
  = (Returned tt,
     {| glean := g; lock_depth := lock_depth w;
        atexit_registry := atexit_registry w; dispatcher := dispatcher w;
        fs := fs w;
        trace := trace w ++ [line EvLockAcquire; line EvLockRelease] |}).
Proof.
  intros H g line. subst g line. unfold initialize, initialize_locked.
  destruct log_level; run; rewrite H; cbn; flatten_log; reflexivity.
Qed.

(** A call without a data directory on a coordinator that is not
    initialised: the process afterwards. *)
Lemma initialize_rejected (application_id : string)
    (application_version : option string) (upload_enabled : bool)
    (configuration : option Configuration)
    (application_build_id : option string) (log_level : option Z)
    (w : World) :
  _initialized (glean w) = false ->
  let g := with_log_level log_level (glean w) in
  let line e :=
    {| at_glean := g; at_lock := S (lock_depth w);
       at_pending := pending (dispatcher w); ev := e |} in
  initialize application_id application_version upload_enabled
    configuration None application_build_id log_level w
  = (Raised (TypeError "data_dir must be provided"),
     {| glean := g; lock_depth := lock_depth w;
        atexit_registry := atexit_registry w ++ [HReset];
        dispatcher := dispatcher w; fs := fs w;
        trace :=
          trace w ++
          [line EvLockAcquire; line (EvAtexitRegister HReset);
           line EvLockRelease] |}).
Proof.
  intros H g line. subst g line. unfold initialize, initialize_locked.
  destruct log_level; run; rewrite H; cbn; flatten_log; reflexivity.
Qed.

Lemma with_log_level_session (log_level : option Z) (g : Glean) :
  session_config (with_log_level log_level g) = session_config g /\
  flags (with_log_level log_level g) = flags g.
Proof. destruct log_level; split; reflexivity. Qed.

(** C1: once [is_initialized()] returns [True], a further [initialize],
    whatever its arguments, returns without a call to the core (its only
    calls are taking and releasing the lock) and leaves the stored session
    configuration (data directory, configuration object, application id,
    version and build id) as it was; the flags, the exit hooks, the
    dispatcher and the directories are untouched as well. *)
Theorem initialize_idempotent (application_id : string)
    (application_version : option string) (upload_enabled : bool)
    (configuration : option Configuration) (data_dir : option Path)
    (application_build_id : option string) (log_level : option Z)
    (w : World) :
  is_initialized w = (Returned true, w) ->
  exists w' new,
    initialize application_id application_version upload_enabled
      configuration data_dir application_build_id log_level w
      = (Returned tt, w') /\
    trace w' = trace w ++ new /\
    map ev new = [EvLockAcquire; EvLockRelease] /\
    Forall (fun e => is_core_call (ev e) = false) new /\
    session_config (glean w') = session_config (glean w) /\
    flags (glean w') = flags (glean w) /\
    atexit_registry w' = atexit_registry w /\
    dispatcher w' = dispatcher w /\ fs w' = fs w /\
    lock_depth w' = lock_depth w.
Proof.
  intros H. unfold is_initialized, read in H. injection H as H.
  rewrite (initialize_again _ _ _ _ _ _ _ _ H).
  destruct (with_log_level_session log_level (glean w)) as [Hs Hf].
  do 2 eexists. split; [reflexivity|]. cbn.
  split; [reflexivity|]. split; [reflexivity|].
  split; [repeat constructor|]. repeat split; assumption.
Qed.

(** An accepted call: what it writes, what it logs, and what it passes to
    the core. *)
Lemma initialize_accepted (application_id : string)
    (application_version : option string) (upload_enabled : bool)
    (configuration : option Configuration) (data_dir : Path)
    (application_build_id : option string) (log_level : option Z)
    (w : World) :
  _initialized (glean w) = false ->
  let g0 := with_log_level log_level (glean w) in
  let g1 := captured application_id application_version configuration
              data_dir application_build_id log_level (glean w) in
  let conf := default Configuration_default configuration in
  let cfg :=
    {| cfg_data_path := data_dir;
       cfg_application_id := application_id;
       cfg_language_binding_name := "Python";
       cfg_upload_enabled := upload_enabled;
       cfg_max_events := max_events conf;
       cfg_delay_ping_lifetime_io := false;
       cfg_use_core_mps := false;
       cfg_app_build := default "Unknown" application_build_id |} in
  let ci :=
    {| ci_app_build := default "Unknown" application_build_id;
       ci_app_display_version := default "Unknown" application_version;
       ci_app_build_date := epoch;
       ci_channel := channel conf;
       ci_architecture := "Unknown";
       ci_os_version := "Unknown";
       ci_locale := None;
       ci_device_manufacturer := None;
       ci_device_model := None;
       ci_android_sdk_version := None |} in
  let line g n e :=
    {| at_glean := g; at_lock := n; at_pending := pending (dispatcher w);
       ev := e |} in
  exists w' post,
    initialize application_id application_version upload_enabled
      configuration (Some data_dir) application_build_id log_level w
      = (Returned tt, w') /\
    trace w' =
      trace w ++
      [line g0 (S (lock_depth w)) EvLockAcquire;
       line g0 (S (lock_depth w)) (EvAtexitRegister HReset);
       line g1 (S (lock_depth w)) EvLockRelease;
       line g1 (lock_depth w) (EvCoreInitialize cfg ci)] ++ post /\
    Forall (fun e => at_lock e = lock_depth w /\ is_core_call (ev e) = false)
      post /\
    (forall cb, cb ∈ core_sync cfg ci -> EvCallback cb ∈ map ev post) /\
    lock_depth w' = lock_depth w /\
    atexit_registry w' = atexit_registry w ++ [HReset] /\
    fs w' = fs w /\
    completed (dispatcher w') = completed (dispatcher w) /\
    set_init_finished false (glean w') =
      set_init_finished false (set_initialized true g1) /\
    (uploads_only w -> uploads_only w').
Proof.
  intros H g0 g1 conf cfg ci line. subst g0 g1 conf cfg ci line.
  unfold initialize, initialize_locked, glean_initialize.
  destruct log_level, application_version, application_build_id,
    configuration; run; rewrite H; cbn.
  all: match goal with
       | |- context [invoke_all ?l ?w0] =>
           destruct (invoke_all_frame l w0)
             as (w2 & post & R & [T E L A F K G U] & Mem)
       end.
  all: rewrite R; cbn; eexists; exists post; (split; [reflexivity|]).
  all: unfold captured, with_log_level in *; cbn in *.
  all: rewrite T, ?H; flatten_log.
  all: (split; [reflexivity|]).
  all: do 6 (split; [assumption|]).
  all: split; [|exact U].
  all: injection G as G1 G2 G3 G4 G5 G6 G7 G8 G9 G10 G11.
  all: f_equal; assumption.
Qed.

(** C10: when [application_version] or [application_build_id] is [None],
    an accepted [initialize] stores the string "Unknown" for it and passes
    "Unknown" on to the core, in the client info (display version and
    build) and in the internal configuration (build); a value that was
    given is stored and passed on as it is ([default "Unknown" (Some v)]
    is [v]).  The core is initialised exactly once by the call. *)
Theorem initialize_unknown_sentinel (application_id : string)
    (application_version : option string) (upload_enabled : bool)
    (configuration : option Configuration) (data_dir : Path)
    (application_build_id : option string) (log_level : option Z)
    (w : World) :
  _initialized (glean w) = false ->
  exists w' before call after cfg ci,
    initialize application_id application_version upload_enabled
      configuration (Some data_dir) application_build_id log_level w
      = (Returned tt, w') /\
    _application_version (glean w') =
      Some (default "Unknown" application_version) /\
    _application_build_id (glean w') =
      Some (default "Unknown" application_build_id) /\
    trace w' = trace w ++ before ++ call :: after /\
    ev call = EvCoreInitialize cfg ci /\
    Forall (fun e => is_core_initialize (ev e) = false) (before ++ after) /\
    ci_app_display_version ci = default "Unknown" application_version /\
    ci_app_build ci = default "Unknown" application_build_id /\
    cfg_app_build cfg = default "Unknown" application_build_id.
Proof.
  intros H.
  destruct (initialize_accepted application_id application_version
              upload_enabled configuration data_dir application_build_id
              log_level w H)
    as (w' & post & R & T & E & _ & _ & _ & _ & _ & G & _).
  eexists w', [_; _; _], _, post, _, _.
  split; [exact R|].
  split; [exact (f_equal _application_version G)|].
  split; [exact (f_equal _application_build_id G)|].
  split; [exact T|]. split; [reflexivity|].
  split; [|repeat split].
  apply Forall_app. split; [repeat constructor|].
  eapply Forall_impl; [exact E|]. intros e [_ He].
  destruct (ev e); try reflexivity; discriminate.
Qed.

(** C6: [initialize] does not hold the lock while the core is being
    initialised.  An accepted call logs, in this order, taking the lock,
    the bookkeeping under it, releasing it, and only then the call of the
    core's initialize entry point.  The session configuration is captured
    under the lock: it is still the old one when the lock is taken and
    when the exit hook is registered, and it is the new one when the lock
    is released.  At the core call the recursion level of the lock is back
    to what it was when [initialize] was entered, the session
    configuration is the captured one, and the core is given the captured
    values.  Every callback that the core invokes before it returns runs
    at that same level, that is, never under the lock taken by
    [initialize]. *)
Theorem initialize_core_call_outside_lock (application_id : string)
    (application_version : option string) (upload_enabled : bool)
    (configuration : option Configuration) (data_dir : Path)
    (application_build_id : option string) (log_level : option Z)
    (w : World) :
  _initialized (glean w) = false ->
  exists w' bookkeeping call after cfg ci,
    initialize application_id application_version upload_enabled
      configuration (Some data_dir) application_build_id log_level w
      = (Returned tt, w') /\
    trace w' = trace w ++ bookkeeping ++ call :: after /\
    map lock_view bookkeeping =
      [(S (lock_depth w), EvLockAcquire);
       (S (lock_depth w), EvAtexitRegister HReset);
       (S (lock_depth w), EvLockRelease)] /\
    map (fun e => session_config (at_glean e)) bookkeeping =
      [session_config (glean w);
       session_config (glean w);
       (data_dir, Some (default Configuration_default configuration),
        Some application_id,
        Some (default "Unknown" application_version),
        Some (default "Unknown" application_build_id))] /\
    lock_view call = (lock_depth w, EvCoreInitialize cfg ci) /\
    session_config (at_glean call) =
      (data_dir, Some (default Configuration_default configuration),
       Some application_id,
       Some (default "Unknown" application_version),
       Some (default "Unknown" application_build_id)) /\
    cfg_data_path cfg = data_dir /\
    cfg_application_id cfg = application_id /\
    cfg_upload_enabled cfg = upload_enabled /\
    cfg_max_events cfg =
      max_events (default Configuration_default configuration) /\
    ci_channel ci = channel (default Configuration_default configuration) /\
    Forall (fun e => at_lock e = lock_depth w) after /\
    (forall cb, cb ∈ core_sync cfg ci ->
       exists e, e ∈ after /\ ev e = EvCallback cb /\
                 at_lock e = lock_depth w) /\
    lock_depth w' = lock_depth w.
Proof.
  intros H.
  destruct (initialize_accepted application_id application_version
              upload_enabled configuration data_dir application_build_id
              log_level w H)
    as (w' & post & R & T & E & Mem & L & _).
  eexists w', [_; _; _], _, post, _, _.
  split; [exact R|]. split; [exact T|].
  split; [reflexivity|].
  split; [destruct log_level; reflexivity|].
  do 7 (split; [reflexivity|]).
  split; [eapply Forall_impl; [exact E|]; intros e [He _]; exact He|].
  split; [|exact L].
  intros cb Hcb. apply Mem in Hcb.
  apply list_elem_of_fmap in Hcb as (e & Hev & He).
  exists e. split; [exact He|]. split; [auto|].
  rewrite Forall_forall in E. apply E. exact He.
Qed.

(** C5, as the code has it: when [initialize] is called without a data
    directory on a coordinator that is not initialised, it raises the
    [TypeError] before any call to the core; the stored session
    configuration and the flags are as before, and of the class attributes
    only [_simple_log_level] is written, when a log level is given. *)
Theorem initialize_without_data_dir (application_id : string)
    (application_version : option string) (upload_enabled : bool)
    (configuration : option Configuration)
    (application_build_id : option string) (log_level : option Z)
    (w : World) :
  _initialized (glean w) = false ->
  exists w' new,
    initialize application_id application_version upload_enabled
      configuration None application_build_id log_level w
      = (Raised (TypeError "data_dir must be provided"), w') /\
    trace w' = trace w ++ new /\
    Forall (fun e => is_core_call (ev e) = false) new /\
    session_config (glean w') = session_config (glean w) /\
    flags (glean w') = flags (glean w) /\
    glean w' = with_log_level log_level (glean w) /\
    lock_depth w' = lock_depth w /\
    dispatcher w' = dispatcher w /\ fs w' = fs w.
Proof.
  intros H. rewrite (initialize_rejected _ _ _ _ _ _ _ H).
  destruct (with_log_level_session log_level (glean w)) as [Hs Hf].
  do 2 eexists. split; [reflexivity|]. cbn.
  split; [reflexivity|]. split; [repeat constructor|].
  repeat split; assumption.
Qed.

(** ** The dispatcher and the directories *)

Lemma rmtree_removes (p : Path) (f : gset Path) : p ∉ _rmtree p f.
Proof.
  unfold _rmtree. rewrite elem_of_filter. intros [H _].
  unfold under in H. rewrite String.eqb_refl in H. discriminate.
Qed.

Lemma run_jobs_subseteq (js : list Job) (f : gset Path) :
  foldl run_job f js ⊆ f.
Proof.
  revert f. induction js as [|j js IH]; intros f; cbn; [done|].
  etrans; [apply IH|]. destruct j; cbn; [done|].
  unfold _rmtree. intros x. rewrite elem_of_filter. tauto.
Qed.

Lemma run_jobs_uploads (js : list Job) (f : gset Path) :
  Forall (fun j => is_upload j = true) js -> foldl run_job f js = f.
Proof.
  intros H. induction H as [|j js Hj _ IH]; cbn; [done|].
  destruct j; [exact IH|discriminate].
Qed.

(** ** [_reset] *)

(** [_reset] always returns; what it leaves behind. *)
Lemma reset_returns (w : World) :
  exists w' new,
    _reset w = (Returned tt, w') /\
    trace w' = trace w ++ new /\
    glean w' = cleared (glean w) /\
    lock_depth w' = lock_depth w /\
    atexit_registry w' =
      filter (fun x => x <> HReset) (atexit_registry w) /\
    fs w' ⊆ fs w /\
    (owned w = false ->
     fs w' = fs w /\ dispatcher w' = dispatcher w /\
     Forall (fun e => is_dispatcher_call (ev e) = false) new) /\
    (uploads_only w -> uploads_only w').
Proof.
  unfold _reset, owns_existing_data_dir, owned, uploads_only. run.
  destruct (_destroy_data_dir (glean w)) eqn:D; cbn; rewrite ?D; cbn;
    [destruct (bool_decide (_data_dir (glean w) ∈ fs w)) eqn:X; cbn;
       rewrite ?D; cbn;
       [match goal with
        | |- context [bool_decide ?P] => destruct (bool_decide P) eqn:Y
        end; cbn
       |rewrite X; cbn]
    |].
  all: do 2 eexists; (split; [reflexivity|]); cbn; flatten_log.
  all: (split; [reflexivity|]); unfold cleared; cbn.
  all: (split; [f_equal; congruence|]).
  all: do 2 (split; [reflexivity|]).
  all: split;
    [try reflexivity; try apply run_jobs_subseteq;
     try (etrans; apply run_jobs_subseteq)|].
  all: split;
    [first
       [intros ?; discriminate
       |intros _; split; [reflexivity|]; split;
          [destruct w as [? ? ? [] ? ?]; reflexivity|repeat constructor]]
    |].
  all: intros U; cbn; rewrite ?skipn_all, ?firstn_all; cbn.
  all: rewrite ?Nat.add_0_r, ?Nat.sub_succ_l, ?Nat.sub_diag by lia; cbn.
  all: first [exact U|constructor].
Qed.

(** [_reset] on a directory that the coordinator owns and that exists,
    when the jobs still queued are upload passes. *)
Lemma reset_owned (w : World) :
  _destroy_data_dir (glean w) = true ->
  _data_dir (glean w) ∈ fs w ->
  uploads_only w ->
  let data_dir := _data_dir (glean w) in
  let queued := pending (dispatcher w) in
  let finished := completed (dispatcher w) in
  let removal := (length finished + length queued)%nat in
  let line g jobs e :=
    {| at_glean := g; at_lock := lock_depth w; at_pending := jobs;
       ev := e |} in
  exists w',
    _reset w = (Returned tt, w') /\
    trace w' =
      trace w ++
      [line (glean w) queued EvWaitForLastProcess;
       line (glean w) [] (EvCoreDestroy false);
       line (glean w) [] (EvCoreSetTestMode false);
       line (cleared (glean w)) [] (EvAtexitUnregister HReset);
       line (cleared (glean w)) [] (EvDispatch (JRmtree data_dir) removal);
       line (cleared (glean w)) [JRmtree data_dir] (EvWait removal)] /\
    pending (dispatcher w') = [] /\
    completed (dispatcher w') = finished ++ queued ++ [JRmtree data_dir] /\
    (data_dir ∉ fs w') /\
    (HReset ∉ atexit_registry w').
Proof.
  intros D X U data_dir queued finished removal line.
  subst data_dir queued finished removal line. unfold uploads_only in U.
  unfold _reset, owns_existing_data_dir, cleared. run.
  rewrite D; cbn. rewrite (bool_decide_eq_true_2 _ X); cbn.
  rewrite ?D; cbn. unfold run_jobs.
  rewrite !firstn_all, !skipn_all, (run_jobs_uploads _ _ U).
  rewrite (bool_decide_eq_true_2 _ X); cbn.
  rewrite Nat.add_0_r, length_app.
  replace (S (length (completed (dispatcher w))
              + length (pending (dispatcher w)))
           - (length (completed (dispatcher w))
              + length (pending (dispatcher w))))%nat with 1%nat by lia.
  eexists. split; [reflexivity|]. cbn. flatten_log.
  split; [reflexivity|]. split; [reflexivity|]. split; [reflexivity|].
  split; [apply rmtree_removes|].
  rewrite list_elem_of_filter. intros [H _]. exact (H eq_refl).
Qed.

(** C3: in every run of [_reset], the dispatcher is called (the wait for
    the last job, the submission of the removal job, the wait for it) only
    when the ownership flag is true and the data directory exists; short
    of that, and in particular whenever the flag is false, [_reset] leaves
    the directories alone, and the dispatcher too. *)
Theorem reset_removal_only_when_owned (w : World) :
  exists w' new,
    _reset w = (Returned tt, w') /\
    trace w' = trace w ++ new /\
    ((exists e, e ∈ new /\ is_dispatcher_call (ev e) = true) ->
     _destroy_data_dir (glean w) = true /\ _data_dir (glean w) ∈ fs w) /\
    (owned w = false ->
     fs w' = fs w /\ dispatcher w' = dispatcher w /\
     Forall (fun e => is_dispatcher_call (ev e) = false) new) /\
    (_destroy_data_dir (glean w) = false ->
     fs w' = fs w /\ dispatcher w' = dispatcher w /\
     Forall (fun e => is_dispatcher_call (ev e) = false) new).
Proof.
  destruct (reset_returns w) as (w' & new & R & T & _ & _ & _ & _ & N & _).
  exists w', new. split; [exact R|]. split; [exact T|].
  split; [|split; [exact N|]].
  - intros (e & He & Hd). destruct (owned w) eqn:O.
    + unfold owned in O. apply andb_true_iff in O as [D X].
      apply bool_decide_eq_true in X. auto.
    + destruct (N eq_refl) as (_ & _ & F).
      rewrite Forall_forall in F. rewrite (F e He) in Hd. discriminate.
  - intros D. apply N. unfold owned. rewrite D. reflexivity.
Qed.

(** C4, as the code has it: after [_reset] returns, [is_initialized()] is
    false, the init-finished flag and the testing-mode flag are false and
    the exit hook is gone; the ownership flag and the stored session
    configuration are left as they were.  The ownership flag is set to
    false by the next [initialize] that is accepted, which [_reset] makes
    possible again. *)
Theorem reset_clears_flags (w : World) :
  exists w',
    _reset w = (Returned tt, w') /\
    is_initialized w' = (Returned false, w') /\
    _init_finished (glean w') = false /\
    _testing_mode (glean w') = false /\
    (HReset ∉ atexit_registry w') /\
    _destroy_data_dir (glean w') = _destroy_data_dir (glean w) /\
    session_config (glean w') = session_config (glean w) /\
    (forall application_id application_version upload_enabled
            configuration data_dir application_build_id log_level,
       exists w'',
         initialize application_id application_version upload_enabled
           configuration (Some data_dir) application_build_id log_level w'
           = (Returned tt, w'') /\
         _initialized (glean w'') = true /\
         _destroy_data_dir (glean w'') = false).
Proof.
  destruct (reset_returns w) as (w' & new & R & _ & G & _ & A & _).
  exists w'. split; [exact R|].
  unfold is_initialized, read. rewrite A, G. cbn.
  repeat split.
  - rewrite list_elem_of_filter. intros [H _]. exact (H eq_refl).
  - intros aid av ue conf d ab ll.
    destruct (initialize_accepted aid av ue conf d ab ll w')
      as (w2 & post & R2 & _ & _ & _ & _ & _ & _ & _ & G2 & _).
    + rewrite G. reflexivity.
    + exists w2. split; [exact R2|].
      split; [exact (f_equal _initialized G2)
             |exact (f_equal _destroy_data_dir G2)].
Qed.

(** ** Sessions *)

(** Nothing that the host or the surroundings can do sets the ownership
    flag. *)
Lemma step_keeps_not_owning (w : World) (s : Step) :
  is_public s = true ->
  _destroy_data_dir (glean w) = false ->
  _destroy_data_dir (glean (step w s)) = false.
Proof.
  intros P D. destruct s; try discriminate P; clear P; cbn [step].
  - destruct (_initialized (glean w)) eqn:I.
    + rewrite (initialize_again _ _ _ _ _ _ _ _ I). cbn.
      destruct log_level; exact D.
    + destruct data_dir as [d|].
      * destruct (initialize_accepted application_id application_version
                    upload_enabled configuration0 d application_build_id
                    log_level w I)
          as (w' & post & R & _ & _ & _ & _ & _ & _ & _ & G & _).
        rewrite R. exact (f_equal _destroy_data_dir G).
      * rewrite (initialize_rejected _ _ _ _ _ _ _ I). cbn.
        destruct log_level; exact D.
  - exact D.
  - unfold configuration, attribute.
    destruct (_configuration (glean w)); exact D.
  - exact D.
  - exact D.
  - exact D.
  - unfold test_is_experiment_active, glean_test_get_experiment_data.
    destruct (core_experiment_data experiment_id); run; exact D.
  - unfold test_get_experiment_data, glean_test_get_experiment_data.
    destruct (core_experiment_data experiment_id) as [[r|]|msg]; run;
      exact D.
  - exact D.
  - exact D.
  - destruct (reset_returns w) as (w' & new & R & _ & G & _).
    rewrite R. cbn. rewrite G. exact D.
  - destruct (invoke_frame cb w) as (w' & new & R & [_ _ _ _ _ _ G _] & _).
    rewrite R. cbn. rewrite <- D. exact (f_equal _destroy_data_dir G).
  - exact D.
  - exact D.
Qed.

Lemma session_keeps_not_owning (steps : list Step) (w : World) :
  Forall (fun s => is_public s = true) steps ->
  _destroy_data_dir (glean w) = false ->
  _destroy_data_dir (glean (session steps w)) = false.
Proof.
  unfold session. intros P. revert w.
  induction P as [|s steps Ps _ IH]; intros w D; [exact D|].
  cbn [foldl]. apply IH, step_keeps_not_owning; assumption.
Qed.

(** Whatever happens, the test entry point included, the jobs still
    queued between two calls are upload passes: the removal job is waited
    for inside [_reset]. *)
Lemma step_keeps_uploads_only (w : World) (s : Step) :
  uploads_only w -> uploads_only (step w s).
Proof.
  intros U. destruct s; cbn [step].
  - destruct (_initialized (glean w)) eqn:I.
    + rewrite (initialize_again _ _ _ _ _ _ _ _ I). exact U.
    + destruct data_dir as [d|].
      * destruct (initialize_accepted application_id application_version
                    upload_enabled configuration0 d application_build_id
                    log_level w I)
          as (w' & post & R & _ & _ & _ & _ & _ & _ & _ & _ & K).
        rewrite R. exact (K U).
      * rewrite (initialize_rejected _ _ _ _ _ _ _ I). exact U.
  - exact U.
  - unfold configuration, attribute.
    destruct (_configuration (glean w)); exact U.
  - exact U.
  - exact U.
  - exact U.
  - unfold test_is_experiment_active, glean_test_get_experiment_data.
    destruct (core_experiment_data experiment_id); run; exact U.
  - unfold test_get_experiment_data, glean_test_get_experiment_data.
    destruct (core_experiment_data experiment_id) as [[r|]|msg]; run;
      exact U.
  - exact U.
  - exact U.
  - destruct (reset_returns w) as (w' & new & R & _ & _ & _ & _ & _ & _ & K).
    rewrite R. exact (K U).
  - destruct (invoke_frame cb w) as (w' & new & R & [_ _ _ _ _ _ _ K] & _).
    rewrite R. exact (K U).
  - unfold uploads_only in *. cbn. apply Forall_drop, U.
  - exact U.
  - destruct (_initialized (glean w)) eqn:I;
      unfold _initialize_with_tempdir_for_testing, mbind, M_bind.
    + rewrite (initialize_again _ _ _ _ _ _ _ _ I). exact U.
    + destruct (initialize_accepted application_id application_version
                  upload_enabled configuration0 tmp application_build_id
                  None w I)
        as (w' & post & R & _ & _ & _ & _ & _ & _ & _ & _ & K).
      rewrite R. exact (K U).
  - exact U.
Qed.

Lemma session_keeps_uploads_only (steps : list Step) (w : World) :
  uploads_only w -> uploads_only (session steps w).
Proof.
  revert w. unfold session.
  induction steps as [|s steps IH]; intros w U; [exact U|].
  cbn [foldl]. apply IH, step_keeps_uploads_only, U.
Qed.

(** C2: in whatever state the process has reached (through the host, the
    core, the dispatcher or a test), when the coordinator
    owns the data directory and the directory exists, [_reset] goes through
    the teardown in this order: it waits for the last job of the
    dispatcher, and no job is pending any more when it then destroys the
    core with [False] and clears the core's test mode; it clears the three
    local flags and only then unregisters the exit hook, submits the
    removal of the directory to the same dispatcher and waits for it.
    When [_reset] returns, every job submitted before has completed, in
    submission order and before the removal, and the directory no longer
    exists. *)
Theorem reset_teardown_order (dirs : gset Path) (steps : list Step) :
  let w := session steps (process_start dirs) in
  _destroy_data_dir (glean w) = true ->
  _data_dir (glean w) ∈ fs w ->
  let data_dir := _data_dir (glean w) in
  let queued := pending (dispatcher w) in
  let finished := completed (dispatcher w) in
  let removal := (length finished + length queued)%nat in
  let line g jobs e :=
    {| at_glean := g; at_lock := lock_depth w; at_pending := jobs;
       ev := e |} in
  exists w',
    _reset w = (Returned tt, w') /\
    trace w' =
      trace w ++
      [line (glean w) queued EvWaitForLastProcess;
       line (glean w) [] (EvCoreDestroy false);
       line (glean w) [] (EvCoreSetTestMode false);
       line (cleared (glean w)) [] (EvAtexitUnregister HReset);
       line (cleared (glean w)) [] (EvDispatch (JRmtree data_dir) removal);
       line (cleared (glean w)) [JRmtree data_dir] (EvWait removal)] /\
    pending (dispatcher w') = [] /\
    completed (dispatcher w') = finished ++ queued ++ [JRmtree data_dir] /\
    (data_dir ∉ fs w') /\
    (HReset ∉ atexit_registry w').
Proof.
  intros w D X. apply (reset_owned w D X).
  apply session_keeps_uploads_only. constructor.
Qed.

(** C9: an [initialize] that is accepted (the coordinator is not yet
    initialised and a data directory is given) sets the ownership flag to
    false.  Hence in a session that goes through the public interface
    alone (no step of a test), whatever the host, the core and the
    dispatcher do and in whatever order, the flag is false and [_reset]
    neither calls the dispatcher nor touches the directories.  Ownership comes from
    [_initialize_with_tempdir_for_testing] only, which sets the flag to
    true after [initialize] has returned. *)
Theorem public_sessions_never_own_data_dir (dirs : gset Path)
    (steps : list Step) (w0 : World) (tmp : Path) (application_id : string)
    (application_version : option string) (upload_enabled : bool)
    (configuration : option Configuration) (data_dir : Path)
    (application_build_id : option string) (log_level : option Z) :
  _initialized (glean w0) = false ->
  Forall (fun s => is_public s = true) steps ->
  (exists w',
     initialize application_id application_version upload_enabled
       configuration (Some data_dir) application_build_id log_level w0
       = (Returned tt, w') /\
     _destroy_data_dir (glean w') = false) /\
  (let w := session steps (process_start dirs) in
   _destroy_data_dir (glean w) = false /\
   exists w' new,
     _reset w = (Returned tt, w') /\
     trace w' = trace w ++ new /\
     Forall (fun e => is_dispatcher_call (ev e) = false) new /\
     fs w' = fs w /\ dispatcher w' = dispatcher w) /\
  (exists w',
     _initialize_with_tempdir_for_testing tmp application_id
       application_version upload_enabled configuration
       application_build_id w0
       = (Returned tt, w') /\
     _destroy_data_dir (glean w') = true /\
     _data_dir (glean w') = tmp).
Proof.
  intros I P. split; [|split].
  - destruct (initialize_accepted application_id application_version
                upload_enabled configuration data_dir application_build_id
                log_level w0 I)
      as (w' & post & R & _ & _ & _ & _ & _ & _ & _ & G & _).
    exists w'. split; [exact R|exact (f_equal _destroy_data_dir G)].
  - intros w.
    assert (D : _destroy_data_dir (glean w) = false)
      by (apply session_keeps_not_owning; [exact P|reflexivity]).
    split; [exact D|].
    destruct (reset_returns w)
      as (w' & new & R & T & _ & _ & _ & _ & N & _).
    destruct N as (F & K & E); [unfold owned; rewrite D; reflexivity|].
    exists w', new. auto.
  - destruct (initialize_accepted application_id application_version
                upload_enabled configuration tmp application_build_id
                None w0 I)
      as (w' & post & R & _ & _ & _ & _ & _ & _ & _ & G & _).
    unfold _initialize_with_tempdir_for_testing, mbind, M_bind.
    rewrite R. eexists. split; [reflexivity|]. cbn.
    split; [reflexivity|exact (f_equal _data_dir G)].
Qed.

(** ** Further properties of the coordinator *)

(** What every step does to the lock and to the log, and what it keeps
    of an initialised coordinator. *)
Lemma step_log (w : World) (s : Step) :
  lock_depth (step w s) = lock_depth w /\
  exists new,
    trace (step w s) = trace w ++ new /\
    (_initialized (glean w) = true -> is_reset s = false ->
     Forall (fun e => is_core_initialize (ev e) = false) new /\
     _initialized (glean (step w s)) = true).
Proof.
  destruct s; cbn [step].
  - destruct (_initialized (glean w)) eqn:I.
    + rewrite (initialize_again _ _ _ _ _ _ _ _ I). cbn.
      split; [reflexivity|]. eexists. split; [reflexivity|].
      intros _ _. split; [repeat constructor|].
      destruct log_level; exact I.
    + destruct data_dir as [d|].
      * destruct (initialize_accepted application_id application_version
                    upload_enabled configuration0 d application_build_id
                    log_level w I)
          as (w' & post & R & T & _ & _ & L & _).
        rewrite R. cbn. split; [exact L|].
        eexists. split; [exact T|]. intros H. discriminate H.
      * rewrite (initialize_rejected _ _ _ _ _ _ _ I). cbn.
        split; [reflexivity|]. eexists. split; [reflexivity|].
        intros H. discriminate H.
  - split; [reflexivity|]. exists []. rewrite app_nil_r. auto.
  - unfold configuration, attribute.
    destruct (_configuration (glean w)); cbn;
      (split; [reflexivity|]); exists []; rewrite app_nil_r; auto.
  - split; [reflexivity|]. eexists. split; [reflexivity|].
    intros I _. split; [repeat constructor|exact I].
  - split; [reflexivity|]. eexists. split; [reflexivity|].
    intros I _. split; [repeat constructor|exact I].
  - split; [reflexivity|]. eexists. split; [reflexivity|].
    intros I _. split; [repeat constructor|exact I].
  - unfold test_is_experiment_active, glean_test_get_experiment_data.
    destruct (core_experiment_data experiment_id); run;
      (split; [reflexivity|]); eexists; (split; [reflexivity|]);
      intros I _; (split; [repeat constructor|exact I]).
  - unfold test_get_experiment_data, glean_test_get_experiment_data.
    destruct (core_experiment_data experiment_id) as [[r|]|msg]; run;
      (split; [reflexivity|]); eexists; (split; [reflexivity|]);
      intros I _; (split; [repeat constructor|exact I]).
  - split; [reflexivity|]. eexists. split; [reflexivity|].
    intros I _. split; [repeat constructor|exact I].
  - split; [reflexivity|]. eexists. split; [reflexivity|].
    intros I _. split; [repeat constructor|exact I].
  - destruct (reset_returns w) as (w' & new & R & T & _ & L & _).
    rewrite R. cbn. split; [exact L|]. exists new. split; [exact T|].
    intros _ H. discriminate H.
  - destruct (invoke_frame cb w) as (w' & new & R & [T E L _ _ _ G _] & _).
    rewrite R. cbn. split; [exact L|]. exists new. split; [exact T|].
    intros I _. split.
    + eapply Forall_impl; [exact E|]. intros e [_ He].
      destruct (ev e); try reflexivity; discriminate.
    + rewrite <- I. exact (f_equal _initialized G).
  - split; [reflexivity|]. exists []. rewrite app_nil_r. auto.
  - split; [reflexivity|]. exists []. rewrite app_nil_r. auto.
  - unfold _initialize_with_tempdir_for_testing, mbind, M_bind.
    destruct (_initialized (glean w)) eqn:I.
    + rewrite (initialize_again _ _ _ _ _ _ _ _ I). cbn.
      split; [reflexivity|]. eexists. split; [reflexivity|].
      intros _ _. split; [repeat constructor|exact I].
    + destruct (initialize_accepted application_id application_version
                  upload_enabled configuration0 tmp application_build_id
                  None w I)
        as (w' & post & R & T & _ & _ & L & _).
      rewrite R. cbn. split; [exact L|].
      eexists. split; [exact T|]. intros H. discriminate H.
  - split; [reflexivity|]. exists []. rewrite app_nil_r. auto.
Qed.

(** X1: no method leaves the lock held: whatever is called and however it
    ends, by a return or by the [TypeError] of [initialize], the recursion
    level of [_thread_lock] is afterwards what it was before. *)
Theorem lock_never_left_held (steps : list Step) (w : World) :
  lock_depth (session steps w) = lock_depth w.
Proof.
  revert w. unfold session.
  induction steps as [|s steps IH]; intros w; [reflexivity|].
  cbn [foldl]. rewrite IH. apply step_log.
Qed.

(** X3: the log level is taken on every path of [initialize]: when a level is
    given it is stored, also by a call that is ignored because the
    coordinator is initialised and by a call that fails for want of a
    data directory; when none is given the stored level stays. *)
Theorem initialize_always_stores_log_level (application_id : string)
    (application_version : option string) (upload_enabled : bool)
    (configuration : option Configuration) (data_dir : option Path)
    (application_build_id : option string) (log_level : option Z)
    (w : World) :
  _simple_log_level
    (glean (initialize application_id application_version upload_enabled
              configuration data_dir application_build_id log_level w).2)
  = match log_level with
    | Some l => Some l
    | None => _simple_log_level (glean w)
    end.
Proof.
  destruct (_initialized (glean w)) eqn:I.
  - rewrite (initialize_again _ _ _ _ _ _ _ _ I). cbn.
    destruct log_level; reflexivity.
  - destruct data_dir as [d|].
    + destruct (initialize_accepted application_id application_version
                  upload_enabled configuration d application_build_id
                  log_level w I)
        as (w' & post & R & _ & _ & _ & _ & _ & _ & _ & G & _).
      rewrite R. exact (f_equal _simple_log_level G).
    + rewrite (initialize_rejected _ _ _ _ _ _ _ I). cbn.
      destruct log_level; reflexivity.
Qed.

(** X4: once the coordinator is initialised it stays so until [_reset]:
    whatever else is called (further [initialize] calls, the test entry
    point, callbacks, queries), [is_initialized()] keeps returning [True]
    and the core's initialize entry point is not called again. *)
Theorem initialized_until_reset (steps : list Step) (w : World) :
  _initialized (glean w) = true ->
  Forall (fun s => is_reset s = false) steps ->
  is_initialized (session steps w) = (Returned true, session steps w) /\
  exists new,
    trace (session steps w) = trace w ++ new /\
    Forall (fun e => is_core_initialize (ev e) = false) new.
Proof.
  intros I P. revert w I. unfold session, is_initialized, read.
  induction P as [|s steps Ps _ IH]; intros w I; cbn [foldl].
  - rewrite I. split; [reflexivity|]. exists []. rewrite app_nil_r. auto.
  - destruct (step_log w s) as (_ & new & T & K).
    destruct (K I Ps) as (F & I').
    destruct (IH (step w s) I') as (R & new' & T' & F').
    split; [exact R|]. exists (new ++ new'). split.
    + rewrite T', T. symmetry. apply app_assoc.
    + apply Forall_app. auto.
Qed.

(** What the callbacks see and write of the two state flags. *)
Lemma invoke_snapshot (cb : Callback) (w : World) :
  exists w' new,
    invoke cb w = (Returned tt, w') /\
    trace w' = trace w ++ new /\
    Forall (fun e => _initialized (at_glean e) = _initialized (glean w)) new /\
    _initialized (glean w') = _initialized (glean w) /\
    _init_finished (glean w') =
      _init_finished (glean w) || bool_decide (cb = CbInitializeFinished).
Proof.
  destruct cb; unfold invoke; run; do 2 eexists;
    (split; [reflexivity|]); cbn; flatten_log;
    (split; [reflexivity|]); (split; [repeat constructor|]);
    (split; [reflexivity|]);
    destruct (_init_finished (glean w)); reflexivity.
Qed.

Lemma finished_cons (cb : Callback) (rest : list Callback) :
  bool_decide (CbInitializeFinished ∈ cb :: rest) =
  bool_decide (cb = CbInitializeFinished)
  || bool_decide (CbInitializeFinished ∈ rest).
Proof.
  rewrite <- bool_decide_or. apply bool_decide_ext.
  rewrite elem_of_cons. intuition congruence.
Qed.

Lemma invoke_all_snapshot (cbs : list Callback) (w : World) :
  exists w' new,
    invoke_all cbs w = (Returned tt, w') /\
    trace w' = trace w ++ new /\
    Forall (fun e => _initialized (at_glean e) = _initialized (glean w)) new /\
    _initialized (glean w') = _initialized (glean w) /\
    _init_finished (glean w') =
      _init_finished (glean w) || bool_decide (CbInitializeFinished ∈ cbs).
Proof.
  revert w. induction cbs as [|cb rest IH]; intros w.
  - exists w, []. rewrite app_nil_r, orb_false_r. auto.
  - destruct (invoke_snapshot cb w) as (w1 & new1 & R1 & T1 & F1 & I1 & N1).
    destruct (IH w1) as (w2 & new2 & R2 & T2 & F2 & I2 & N2).
    exists w2, (new1 ++ new2). split.
    { cbn [invoke_all]. unfold mbind, M_bind. rewrite R1. exact R2. }
    split; [rewrite T2, T1; symmetry; apply app_assoc|].
    split; [apply Forall_app; split; [exact F1|rewrite <- I1; exact F2]|].
    split; [congruence|].
    rewrite N2, N1, finished_cons. symmetry. apply orb_assoc.
Qed.

(** An accepted call, seen through the two state flags. *)
Lemma initialize_accepted_flags (application_id : string)
    (application_version : option string) (upload_enabled : bool)
    (configuration : option Configuration) (data_dir : Path)
    (application_build_id : option string) (log_level : option Z)
    (w : World) :
  _initialized (glean w) = false ->
  exists w' new cfg ci,
    initialize application_id application_version upload_enabled
      configuration (Some data_dir) application_build_id log_level w
      = (Returned tt, w') /\
    trace w' = trace w ++ new /\
    (exists e, e ∈ new /\ ev e = EvCoreInitialize cfg ci) /\
    Forall (fun e => _initialized (at_glean e) = false) new /\
    _initialized (glean w') = true /\
    _init_finished (glean w') =
      _init_finished (glean w)
      || bool_decide (CbInitializeFinished ∈ core_sync cfg ci).
Proof.
  intros H. unfold initialize, initialize_locked, glean_initialize.
  destruct log_level, application_version, application_build_id,
    configuration; run; rewrite H; cbn.
  all: match goal with
       | |- context [invoke_all ?l ?w0] =>
           destruct (invoke_all_snapshot l w0)
             as (w2 & post & R & T & F & I2 & N)
       end.
  all: rewrite R; cbn; do 4 eexists; (split; [reflexivity|]).
  all: cbn in *; rewrite T, ?H; rewrite ?H in F; flatten_log.
  all: (split; [reflexivity|]).
  all: split;
    [eexists; split;
       [do 3 (apply elem_of_cons; right); apply elem_of_cons; left;
        reflexivity
       |reflexivity]
    |].
  all: split;
    [repeat (constructor; [first [reflexivity|exact H]|]); exact F|].
  all: split; [reflexivity|exact N].
Qed.

(** X5: while an accepted [initialize] runs, [is_initialized()] is still
    false: [_initialized] is assigned after the core call has returned, so
    every call that [initialize] makes, the core call and the callbacks
    that the core invokes before it returns included, is made with
    [_initialized] false; it is true when [initialize] returns. *)
Theorem initialized_only_at_return (application_id : string)
    (application_version : option string) (upload_enabled : bool)
    (configuration : option Configuration) (data_dir : Path)
    (application_build_id : option string) (log_level : option Z)
    (w : World) :
  _initialized (glean w) = false ->
  exists w' new,
    initialize application_id application_version upload_enabled
      configuration (Some data_dir) application_build_id log_level w
      = (Returned tt, w') /\
    trace w' = trace w ++ new /\
    Forall (fun e => _initialized (at_glean e) = false) new /\
    is_initialized w' = (Returned true, w').
Proof.
  intros H.
  destruct (initialize_accepted_flags application_id application_version
              upload_enabled configuration data_dir application_build_id
              log_level w H)
    as (w' & new & cfg & ci & R & T & _ & F & I & _).
  exists w', new. unfold is_initialized, read. rewrite I. auto.
Qed.

(** X6: when an accepted [initialize] returns, [_init_finished] is true if it
    was true before or if the core invoked [on_initialize_finished] before
    [glean_initialize] returned, and false otherwise: [initialize] itself
    never writes the flag. *)
Theorem init_finished_after_initialize (application_id : string)
    (application_version : option string) (upload_enabled : bool)
    (configuration : option Configuration) (data_dir : Path)
    (application_build_id : option string) (log_level : option Z)
    (w : World) :
  _initialized (glean w) = false ->
  exists w' new cfg ci,
    initialize application_id application_version upload_enabled
      configuration (Some data_dir) application_build_id log_level w
      = (Returned tt, w') /\
    trace w' = trace w ++ new /\
    (exists e, e ∈ new /\ ev e = EvCoreInitialize cfg ci) /\
    _init_finished (glean w') =
      _init_finished (glean w)
      || bool_decide (CbInitializeFinished ∈ core_sync cfg ci).
Proof.
  intros H.
  destruct (initialize_accepted_flags application_id application_version
              upload_enabled configuration data_dir application_build_id
              log_level w H)
    as (w' & new & cfg & ci & R & T & E & _ & _ & N).
  exists w', new, cfg, ci. auto.
Qed.

(** X7: The [configuration] property gives back what [initialize] was given:
    after an accepted call it returns the configuration object that was
    passed, or [Configuration()] when none was, whatever callbacks the
    core has invoked in between; and it still does after [_reset], which
    leaves the stored configuration in place. *)
Theorem configuration_after_initialize (application_id : string)
    (application_version : option string) (upload_enabled : bool)
    (conf : option Configuration) (data_dir : Path)
    (application_build_id : option string) (log_level : option Z)
    (w : World) :
  _initialized (glean w) = false ->
  exists w1 w2,
    initialize application_id application_version upload_enabled conf
      (Some data_dir) application_build_id log_level w
      = (Returned tt, w1) /\
    configuration w1
      = (Returned (default Configuration_default conf), w1) /\
    _reset w1 = (Returned tt, w2) /\
    configuration w2
      = (Returned (default Configuration_default conf), w2).
Proof.
  intros H.
  destruct (initialize_accepted application_id application_version
              upload_enabled conf data_dir application_build_id log_level
              w H)
    as (w1 & post & R1 & _ & _ & _ & _ & _ & _ & _ & G & _).
  destruct (reset_returns w1) as (w2 & new & R2 & _ & G2 & _).
  exists w1, w2.
  assert (K1 : _configuration (glean w1)
               = Some (default Configuration_default conf))
    by exact (f_equal _configuration G).
  assert (K2 : _configuration (glean w2)
               = Some (default Configuration_default conf))
    by (rewrite G2; exact K1).
  unfold configuration, attribute. rewrite K1, K2. auto.
Qed.

(** Steps other than the two initialising ones leave [_configuration]
    unassigned. *)
Lemma step_keeps_unconfigured (w : World) (s : Step) :
  calls_initialize s = false ->
  _configuration (glean w) = None ->
  _configuration (glean (step w s)) = None.
Proof.
  intros P D. destruct s; try discriminate P; clear P; cbn [step].
  - exact D.
  - unfold configuration, attribute. rewrite D. exact D.
  - exact D.
  - exact D.
  - exact D.
  - unfold test_is_experiment_active, glean_test_get_experiment_data.
    destruct (core_experiment_data experiment_id); run; exact D.
  - unfold test_get_experiment_data, glean_test_get_experiment_data.
    destruct (core_experiment_data experiment_id) as [[r|]|msg]; run;
      exact D.
  - exact D.
  - exact D.
  - destruct (reset_returns w) as (w' & new & R & _ & G & _).
    rewrite R. cbn. rewrite G. exact D.
  - destruct (invoke_frame cb w) as (w' & new & R & [_ _ _ _ _ _ G _] & _).
    rewrite R. cbn. rewrite <- D. exact (f_equal _configuration G).
  - exact D.
  - exact D.
  - exact D.
Qed.

(** X8: before the first [initialize], reading the [configuration] property
    raises an [AttributeError]: the class body only annotates
    [_configuration], and nothing but [initialize] assigns it, whatever
    else has been called since the process started. *)
Theorem configuration_before_initialize (dirs : gset Path)
    (steps : list Step) :
  Forall (fun s => calls_initialize s = false) steps ->
  configuration (session steps (process_start dirs))
  = (Raised (AttributeError "_configuration"),
     session steps (process_start dirs)).
Proof.
  intros P.
  assert (D : _configuration (glean (session steps (process_start dirs)))
              = None).
  { unfold session.
    assert (D0 : _configuration (glean (process_start dirs)) = None)
      by reflexivity.
    revert D0. generalize (process_start dirs).
    induction P as [|s steps Ps _ IH]; intros w D0; [exact D0|].
    cbn [foldl]. apply IH, step_keeps_unconfigured; assumption. }
  unfold configuration, attribute. rewrite D. reflexivity.
Qed.

(** [_reset] when there is no owned directory to remove. *)
Lemma reset_not_owned (w : World) :
  owned w = false ->
  let line g e :=
    {| at_glean := g; at_lock := lock_depth w;
       at_pending := pending (dispatcher w); ev := e |} in
  _reset w
  = (Returned tt,
     {| glean := cleared (glean w); lock_depth := lock_depth w;
        atexit_registry :=
          filter (fun x => x <> HReset) (atexit_registry w);
        dispatcher := dispatcher w; fs := fs w;
        trace :=
          trace w ++
          [line (glean w) (EvCoreDestroy false);
           line (glean w) (EvCoreSetTestMode false);
           line (cleared (glean w)) (EvAtexitUnregister HReset)] |}).
Proof.
  intros O line. subst line.
  unfold _reset, owns_existing_data_dir, owned, cleared in *. run.
  destruct (_destroy_data_dir (glean w)) eqn:D; cbn in *;
    do 2 (rewrite ?D; cbn; rewrite ?O; cbn); flatten_log; reflexivity.
Qed.

(** After [_reset] there is no owned directory left. *)
Lemma reset_disowns (w : World) : owned (_reset w).2 = false.
Proof.
  unfold _reset, owns_existing_data_dir, owned. run.
  destruct (_destroy_data_dir (glean w)) eqn:D; cbn; rewrite ?D; cbn;
    [|reflexivity].
  destruct (bool_decide (_data_dir (glean w) ∈ fs w)) eqn:X; cbn;
    do 2 (rewrite ?D, ?X; cbn); [|exact X].
  match goal with
  | |- context [bool_decide ?P] => destruct (bool_decide P) eqn:Y
  end; cbn; rewrite ?D; cbn; [|exact Y].
  rewrite ?skipn_all, ?firstn_all. cbn.
  rewrite ?Nat.add_0_r, ?Nat.sub_succ_l, ?Nat.sub_diag by lia. cbn.
  apply bool_decide_eq_false_2, rmtree_removes.
Qed.

(** X9: [_reset] can be run again: after one [_reset] there is no owned
    directory left to remove (it has been removed, or it was not there, or
    it was not owned), so a second [_reset] only repeats the two calls to
    the core and the unregistering; it never reaches the dispatcher and
    leaves the class attributes, the exit hooks, the dispatcher and the
    directories as the first one left them. *)
Theorem reset_twice (w : World) :
  exists w1 w2 new,
    _reset w = (Returned tt, w1) /\
    _reset w1 = (Returned tt, w2) /\
    trace w2 = trace w1 ++ new /\
    map ev new =
      [EvCoreDestroy false; EvCoreSetTestMode false;
       EvAtexitUnregister HReset] /\
    glean w2 = glean w1 /\
    atexit_registry w2 = atexit_registry w1 /\
    dispatcher w2 = dispatcher w1 /\
    fs w2 = fs w1.
Proof.
  destruct (reset_returns w) as (w1 & new1 & R1 & _ & G1 & _ & A1 & _).
  assert (O : owned w1 = false)
    by (generalize (reset_disowns w); rewrite R1; auto).
  exists w1. rewrite (reset_not_owned w1 O). do 2 eexists.
  split; [exact R1|]. split; [reflexivity|]. cbn.
  split; [reflexivity|]. split; [reflexivity|].
  split; [rewrite G1; reflexivity|].
  split; [|auto].
  rewrite A1. clear. induction (atexit_registry w) as [|[] r IH];
    [reflexivity|exact IH].
Qed.

(** X10: the exit hook is registered exactly while the coordinator is
    initialised, as long as every call of [initialize] has returned: from
    the start of the process, after any sequence of steps in which no
    [initialize] has ended by an exception, [atexit] holds [_reset] once
    when [is_initialized()] is true and not at all when it is false.  (A
    call that raises has registered the hook already.) *)
Theorem exit_hook_registered_iff_initialized (dirs : gset Path)
    (steps : list Step) :
  initialize_always_returned steps (process_start dirs) = true ->
  let w := session steps (process_start dirs) in
  atexit_registry w = if _initialized (glean w) then [HReset] else [].
Proof.
  cbn zeta. unfold session.
  assert (D0 : atexit_registry (process_start dirs)
               = if _initialized (glean (process_start dirs))
                 then [HReset] else [])
    by reflexivity.
  revert D0. generalize (process_start dirs).
  induction steps as [|s steps IH]; intros w D P; [exact D|].
  cbn [initialize_always_returned] in P.
  apply andb_true_iff in P as [Ps P].
  cbn [foldl]. apply IH; [clear IH P|exact P].
  destruct s; cbn [step]; cbn [initialize_returns] in Ps.
  - destruct (_initialized (glean w)) eqn:I.
    + rewrite (initialize_again _ _ _ _ _ _ _ _ I). cbn.
      destruct log_level; cbn; rewrite I; exact D.
    + destruct data_dir as [d|].
      * destruct (initialize_accepted application_id application_version
                    upload_enabled configuration0 d application_build_id
                    log_level w I)
          as (w' & post & R & _ & _ & _ & _ & A & _ & _ & G & _).
        rewrite R. cbn. rewrite A, D.
        rewrite (f_equal _initialized G : _initialized (glean w') = true).
        reflexivity.
      * rewrite (initialize_rejected _ _ _ _ _ _ _ I) in Ps.
        discriminate Ps.
  - exact D.
  - unfold configuration, attribute.
    destruct (_configuration (glean w)); exact D.
  - exact D.
  - exact D.
  - exact D.
  - unfold test_is_experiment_active, glean_test_get_experiment_data.
    destruct (core_experiment_data experiment_id); run; exact D.
  - unfold test_get_experiment_data, glean_test_get_experiment_data.
    destruct (core_experiment_data experiment_id) as [[r|]|msg]; run;
      exact D.
  - exact D.
  - exact D.
  - destruct (reset_returns w) as (w' & new & R & _ & G & _ & A & _).
    rewrite R. cbn. rewrite A, G, D. cbn.
    destruct (_initialized (glean w)); reflexivity.
  - destruct (invoke_frame cb w) as (w' & new & R & [_ _ _ A _ _ G _] & _).
    rewrite R. cbn. rewrite A, D.
    rewrite (f_equal _initialized G
             : _initialized (glean w') = _initialized (glean w)).
    reflexivity.
  - exact D.
  - exact D.
  - unfold _initialize_with_tempdir_for_testing, mbind, M_bind.
    destruct (_initialized (glean w)) eqn:I.
    + rewrite (initialize_again _ _ _ _ _ _ _ _ I). cbn. rewrite I. exact D.
    + destruct (initialize_accepted application_id application_version
                  upload_enabled configuration0 tmp application_build_id
                  None w I)
        as (w' & post & R & _ & _ & _ & _ & A & _ & _ & G & _).
      rewrite R. cbn. rewrite A, D.
      rewrite (f_equal _initialized G : _initialized (glean w') = true).
      reflexivity.
  - exact D.
Qed.

(** X11: on a coordinator that is already initialised,
    [_initialize_with_tempdir_for_testing] does not move to the temporary
    directory: its [initialize] is ignored, so there is no call to the
    core and the data directory stays the one in use; yet the ownership
    flag is set to true, for that directory. *)
Theorem tempdir_on_initialized (tmp : Path) (application_id : string)
    (application_version : option string) (upload_enabled : bool)
    (configuration : option Configuration)
    (application_build_id : option string) (w : World) :
  _initialized (glean w) = true ->
  exists w' new,
    _initialize_with_tempdir_for_testing tmp application_id
      application_version upload_enabled configuration
      application_build_id w
      = (Returned tt, w') /\
    trace w' = trace w ++ new /\
    Forall (fun e => is_core_call (ev e) = false) new /\
    session_config (glean w') = session_config (glean w) /\
    _destroy_data_dir (glean w') = true.
Proof.
  intros I. unfold _initialize_with_tempdir_for_testing, mbind, M_bind.
  rewrite (initialize_again _ _ _ _ _ _ _ _ I). cbn.
  do 2 eexists. split; [reflexivity|]. cbn.
  split; [reflexivity|]. split; [repeat constructor|auto].
Qed.

(** X12: the methods that only forward ([set_upload_enabled],
    [set_experiment_active], [set_experiment_inactive],
    [handle_client_active], [handle_client_inactive]) check nothing, not
    even whether the coordinator is initialised: any sequence of them
    passes to the core one call each, in the order of the calls and with
    the arguments given (the empty dict for an [extra] left out), and
    changes nothing in the process but the log. *)
Theorem forwarding_methods (steps : list Step) (calls : list Event)
    (w : World) :
  Forall2 (fun s e => forwarded s = Some e) steps calls ->
  exists new,
    trace (session steps w) = trace w ++ new /\
    map ev new = calls /\
    Forall (fun e => at_glean e = glean w) new /\
    glean (session steps w) = glean w /\
    lock_depth (session steps w) = lock_depth w /\
    atexit_registry (session steps w) = atexit_registry w /\
    dispatcher (session steps w) = dispatcher w /\
    fs (session steps w) = fs w.
Proof.
  intros P. revert w. unfold session.
  induction P as [|s e steps calls Hs _ IH]; intros w.
  - exists []. rewrite app_nil_r. cbn. auto 10.
  - cbn [foldl].
    assert (K : step w s = log_call e w)
      by (destruct s; try discriminate Hs; injection Hs as <-;
          try reflexivity; destruct ex; reflexivity).
    rewrite K. destruct (IH (log_call e w))
      as (new & T & M & F & G & L & A & Dp & Fs).
    exists (entry w e :: new). cbn in *.
    rewrite T, <- app_assoc, M. cbn. repeat split; auto.
Qed.

(** What one callback does to the queue of the dispatcher. *)
Lemma invoke_queue (cb : Callback) (w : World) :
  exists w',
    invoke cb w = (Returned tt, w') /\
    pending (dispatcher w') =
      pending (dispatcher w)
      ++ map (fun _ => JUpload (_testing_mode (glean w)))
           (filter (fun c => c = CbTriggerUpload) [cb]) /\
    completed (dispatcher w') = completed (dispatcher w) /\
    set_init_finished false (glean w') = set_init_finished false (glean w) /\
    lock_depth w' = lock_depth w /\
    atexit_registry w' = atexit_registry w /\
    fs w' = fs w.
Proof.
  destruct cb; unfold invoke; run; eexists; (split; [reflexivity|]); cbn;
    rewrite ?app_nil_r; auto 10.
Qed.

(** X13: the callbacks of the event bridge, in any number and order, do
    one thing to the dispatcher: every [trigger_upload] appends one upload
    pass, with the testing-mode flag, to the queue.  Nothing is taken off
    the queue, not by [cancel_uploads] either, and
    [start_metrics_ping_scheduler] starts nothing; of the class attributes
    only [_init_finished] can differ afterwards, and the lock, the exit
    hooks and the directories are as before. *)
Theorem callbacks_only_queue_uploads (cbs : list Callback) (w : World) :
  exists w',
    invoke_all cbs w = (Returned tt, w') /\
    pending (dispatcher w') =
      pending (dispatcher w)
      ++ map (fun _ => JUpload (_testing_mode (glean w)))
           (filter (fun c => c = CbTriggerUpload) cbs) /\
    completed (dispatcher w') = completed (dispatcher w) /\
    set_init_finished false (glean w') = set_init_finished false (glean w) /\
    lock_depth w' = lock_depth w /\
    atexit_registry w' = atexit_registry w /\
    fs w' = fs w.
Proof.
  revert w. induction cbs as [|cb rest IH]; intros w.
  - exists w. cbn. rewrite app_nil_r. auto 10.
  - destruct (invoke_queue cb w) as (w1 & R1 & P1 & K1 & G1 & L1 & A1 & F1).
    destruct (IH w1) as (w2 & R2 & P2 & K2 & G2 & L2 & A2 & F2).
    exists w2. split.
    { cbn [invoke_all]. unfold mbind, M_bind. rewrite R1. exact R2. }
    split.
    { rewrite P2, P1.
      rewrite (f_equal _testing_mode G1
               : _testing_mode (glean w1) = _testing_mode (glean w)).
      change (cb :: rest) with ([cb] ++ rest).
      rewrite filter_app, map_app. symmetry. apply app_assoc. }
    repeat split; congruence.
Qed.

End Coordinator.

(** ** The theorems at concrete processes *)

Lemma initialize_idempotent_witness :
  is_initialized example_ready = (Returned true, example_ready) /\
  exists w' new,
    initialize example_configuration example_core_sync "other-app" None
      false None None None (Some 10%Z) example_ready
      = (Returned tt, w') /\
    trace w' = trace example_ready ++ new /\
    map ev new = [EvLockAcquire; EvLockRelease] /\
    session_config (glean w') = session_config (glean example_ready).
Proof.
  split; [reflexivity|].
  destruct (initialize_idempotent example_configuration example_core_sync
              "other-app" None false None None None (Some 10%Z)
              example_ready eq_refl)
    as (w' & new & R & T & E & _ & K & _).
  exists w', new. auto.
Defined.

Lemma reset_teardown_order_witness :
  let w :=
    session example_configuration example_core_sync (fun _ => Answered None)
      [TestSetsTestingMode true;
       DoInitializeWithTempdirForTesting "/tmp/glean" "app" None true None
         None;
       DirectoryAppears "/tmp/glean"; CoreInvokes CbTriggerUpload;
       JobFinishes]
      (process_start ∅) in
  _data_dir (glean w) = "/tmp/glean" /\
  dispatcher w =
    {| pending := [JUpload true]; completed := [JUpload true] |} /\
  _destroy_data_dir (glean w) = true /\
  _data_dir (glean w) ∈ fs w /\
  exists w',
    _reset w = (Returned tt, w') /\
    pending (dispatcher w') = [] /\
    completed (dispatcher w') =
      completed (dispatcher w) ++ pending (dispatcher w)
      ++ [JRmtree (_data_dir (glean w))] /\
    (_data_dir (glean w) ∉ fs w').
Proof.
  intros w.
  assert (D : _destroy_data_dir (glean w) = true)
    by (vm_compute; reflexivity).
  assert (X : _data_dir (glean w) ∈ fs w)
    by (apply (bool_decide_unpack _); vm_compute; exact I).
  split; [vm_compute; reflexivity|]. split; [vm_compute; reflexivity|].
  split; [exact D|]. split; [exact X|].
  destruct (reset_teardown_order example_configuration example_core_sync
              (fun _ => Answered None) ∅
              [TestSetsTestingMode true;
               DoInitializeWithTempdirForTesting "/tmp/glean" "app" None
                 true None None;
               DirectoryAppears "/tmp/glean"; CoreInvokes CbTriggerUpload;
               JobFinishes]
              D X)
    as (w' & R & _ & P & K & F & _).
  exists w'. split; [exact R|]. split; [exact P|]. split; [exact K|exact F].
Defined.

Lemma initialize_unknown_sentinel_witness :
  _initialized (glean (process_start ∅)) = false /\
  exists w',
    initialize example_configuration example_core_sync "app" None true
      None (Some "/data") (Some "1234/A") None (process_start ∅)
      = (Returned tt, w') /\
    _application_version (glean w') = Some "Unknown" /\
    _application_build_id (glean w') = Some "1234/A".
Proof.
  split; [reflexivity|].
  destruct (initialize_unknown_sentinel example_configuration
              example_core_sync "app" None true None "/data"
              (Some "1234/A") None (process_start ∅) eq_refl)
    as (w' & before & call & after & cfg & ci & R & V & B & _).
  exists w'. auto.
Defined.

Lemma initialize_core_call_outside_lock_witness :
  _initialized (glean (process_start ∅)) = false /\
  exists w' bookkeeping call after cfg ci,
    initialize example_configuration example_core_sync "app" (Some "1.0")
      true None (Some "/data") None None (process_start ∅)
      = (Returned tt, w') /\
    trace w' = bookkeeping ++ call :: after /\
    map (fun e => session_config (at_glean e)) bookkeeping =
      [session_config Glean_class; session_config Glean_class;
       ("/data", Some example_configuration, Some "app", Some "1.0",
        Some "Unknown")] /\
    lock_view call = (0, EvCoreInitialize cfg ci) /\
    Forall (fun e => at_lock e = 0) after.
Proof.
  split; [reflexivity|].
  destruct (initialize_core_call_outside_lock example_configuration
              example_core_sync "app" (Some "1.0") true None "/data" None
              None (process_start ∅) eq_refl)
    as (w' & bookkeeping & call & after & cfg & ci
        & R & T & _ & K & V & _ & _ & _ & _ & _ & _ & F & _).
  exists w', bookkeeping, call, after, cfg, ci. auto.
Defined.

Lemma initialize_without_data_dir_witness :
  _initialized (glean (process_start ∅)) = false /\
  exists w',
    initialize example_configuration example_core_sync "app" (Some "1.0")
      true None None None (Some 10%Z) (process_start ∅)
      = (Raised (TypeError "data_dir must be provided"), w') /\
    session_config (glean w') = session_config Glean_class /\
    flags (glean w') = flags Glean_class.
Proof.
  split; [reflexivity|].
  destruct (initialize_without_data_dir example_configuration
              example_core_sync "app" (Some "1.0") true None None
              (Some 10%Z) (process_start ∅) eq_refl)
    as (w' & new & R & _ & _ & K & F & _).
  exists w'. auto.
Defined.

(** C5, the claim as stated fails: the call without a data directory
    raises, yet it has registered the exit hook, and it has written the
    log level. *)
Lemma initialize_without_data_dir_mutates :
  exists w',
    initialize example_configuration example_core_sync "app" (Some "1.0")
      true None None None (Some 10%Z) (process_start ∅)
      = (Raised (TypeError "data_dir must be provided"), w') /\
    atexit_registry (process_start ∅) = [] /\
    atexit_registry w' = [HReset] /\
    _simple_log_level (glean (process_start ∅)) = None /\
    _simple_log_level (glean w') = Some 10%Z.
Proof.
  eexists. split; [vm_compute; reflexivity|]. repeat split.
Qed.

(** C4, the claim as stated fails: after a test session on a temporary
    directory, [_reset] returns with the ownership flag still true. *)
Lemma reset_keeps_ownership_flag :
  exists w1 w2,
    _initialize_with_tempdir_for_testing example_configuration
      example_core_sync "/tmp/glean" "app" (Some "1.0") true None None
      (process_start ∅)
      = (Returned tt, w1) /\
    _reset w1 = (Returned tt, w2) /\
    is_initialized w2 = (Returned false, w2) /\
    _destroy_data_dir (glean w2) = true.
Proof.
  do 2 eexists. split; [vm_compute; reflexivity|].
  split; [vm_compute; reflexivity|]. split; reflexivity.
Qed.

Lemma public_sessions_never_own_data_dir_witness :
  _initialized (glean (process_start ∅)) = false /\
  (let w :=
     session example_configuration example_core_sync (fun _ => Answered None)
       [DoInitialize "app" (Some "1.0") true None (Some "/data") None None;
        DirectoryAppears "/data"; CoreInvokes CbTriggerUpload;
        DoInitialize "app" None true None (Some "/elsewhere") None None]
       (process_start ∅) in
   _destroy_data_dir (glean w) = false /\
   exists w', _reset w = (Returned tt, w') /\ fs w' = fs w) /\
  exists w',
    _initialize_with_tempdir_for_testing example_configuration
      example_core_sync "/tmp/glean" "app" None true None None
      (process_start ∅)
      = (Returned tt, w') /\
    _destroy_data_dir (glean w') = true.
Proof.
  split; [reflexivity|].
  destruct (public_sessions_never_own_data_dir example_configuration
              example_core_sync (fun _ => Answered None) ∅
              [DoInitialize "app" (Some "1.0") true None (Some "/data")
                 None None;
               DirectoryAppears "/data"; CoreInvokes CbTriggerUpload;
               DoInitialize "app" None true None (Some "/elsewhere") None
                 None]
              (process_start ∅) "/tmp/glean" "app" None true None "/data"
              None None eq_refl ltac:(repeat constructor))
    as (_ & (D & w' & new & R & _ & _ & F & _) & (w2 & R2 & D2 & _)).
  split; [split; [exact D|exists w'; auto]|].
  exists w2. auto.
Defined.

Lemma initialized_until_reset_witness :
  _initialized (glean example_ready) = true /\
  let steps :=
    [DoInitialize "other-app" None false None None None None;
     CoreInvokes CbTriggerUpload;
     DoInitializeWithTempdirForTesting "/tmp/glean" "app" None true None
       None;
     DoSetUploadEnabled false] in
  let w :=
    session example_configuration example_core_sync
      (fun _ => Answered None) steps example_ready in
  is_initialized w = (Returned true, w).
Proof.
  split; [reflexivity|].
  apply (initialized_until_reset example_configuration example_core_sync
           (fun _ => Answered None));
    [reflexivity|repeat constructor].
Defined.

Lemma initialized_only_at_return_witness :
  _initialized (glean (process_start ∅)) = false /\
  exists w' new,
    initialize example_configuration example_core_sync "app" (Some "1.0")
      true None (Some "/data") None None (process_start ∅)
      = (Returned tt, w') /\
    trace w' = new /\
    Forall (fun e => _initialized (at_glean e) = false) new /\
    _initialized (glean w') = true.
Proof.
  split; [reflexivity|].
  destruct (initialized_only_at_return example_configuration
              example_core_sync "app" (Some "1.0") true None "/data" None
              None (process_start ∅) eq_refl)
    as (w' & new & R & T & F & I).
  exists w', new. injection I as I. auto.
Defined.

Lemma init_finished_after_initialize_witness :
  _initialized (glean (process_start ∅)) = false /\
  exists w',
    initialize example_configuration example_core_sync "app" (Some "1.0")
      true None (Some "/data") None None (process_start ∅)
      = (Returned tt, w') /\
    _init_finished (glean w') = true.
Proof.
  split; [reflexivity|].
  destruct (init_finished_after_initialize example_configuration
              example_core_sync "app" (Some "1.0") true None "/data" None
              None (process_start ∅) eq_refl)
    as (w' & new & cfg & ci & R & _ & _ & N).
  exists w'. split; [exact R|]. rewrite N. reflexivity.
Defined.

Lemma configuration_after_initialize_witness :
  _initialized (glean (process_start ∅)) = false /\
  exists w1 w2,
    initialize example_configuration example_core_sync "app" (Some "1.0")
      true None (Some "/data") None None (process_start ∅)
      = (Returned tt, w1) /\
    configuration w1 = (Returned example_configuration, w1) /\
    _reset w1 = (Returned tt, w2) /\
    configuration w2 = (Returned example_configuration, w2).
Proof.
  split; [reflexivity|].
  exact (configuration_after_initialize example_configuration
           example_core_sync (fun _ => Answered None) "app" (Some "1.0")
           true None "/data" None None (process_start ∅) eq_refl).
Defined.

Lemma configuration_before_initialize_witness :
  let steps :=
    [DoIsInitialized; DoSetUploadEnabled true; DoReset;
     CoreInvokes CbInitializeFinished] in
  Forall (fun s => calls_initialize s = false) steps /\
  let w :=
    session example_configuration example_core_sync
      (fun _ => Answered None) steps (process_start ∅) in
  configuration w = (Raised (AttributeError "_configuration"), w).
Proof.
  assert (P : Forall (fun s => calls_initialize s = false)
                [DoIsInitialized; DoSetUploadEnabled true; DoReset;
                 CoreInvokes CbInitializeFinished])
    by (repeat constructor).
  split; [exact P|].
  exact (configuration_before_initialize example_configuration
           example_core_sync (fun _ => Answered None) ∅ _ P).
Defined.

Lemma exit_hook_registered_iff_initialized_witness :
  let steps :=
    [DoInitialize "app" (Some "1.0") true None (Some "/data") None None;
     DoInitialize "app" None true None None None (Some 10%Z);
     DoReset;
     DoInitializeWithTempdirForTesting "/tmp/glean" "app" None true None
       None] in
  initialize_always_returned example_configuration example_core_sync
    (fun _ => Answered None) steps (process_start ∅) = true /\
  let w :=
    session example_configuration example_core_sync
      (fun _ => Answered None) steps (process_start ∅) in
  atexit_registry w = if _initialized (glean w) then [HReset] else [].
Proof.
  intros steps.
  assert (P : initialize_always_returned example_configuration
                example_core_sync (fun _ => Answered None) steps
                (process_start ∅) = true)
    by (vm_compute; reflexivity).
  split; [exact P|].
  exact (exit_hook_registered_iff_initialized example_configuration
           example_core_sync (fun _ => Answered None) ∅ steps P).
Defined.

Lemma tempdir_on_initialized_witness :
  _initialized (glean example_ready) = true /\
  exists w',
    _initialize_with_tempdir_for_testing example_configuration
      example_core_sync "/tmp/glean" "app" None true None None
      example_ready
      = (Returned tt, w') /\
    _data_dir (glean w') = "/data" /\
    _destroy_data_dir (glean w') = true.
Proof.
  split; [reflexivity|].
  destruct (tempdir_on_initialized example_configuration example_core_sync
              "/tmp/glean" "app" None true None None example_ready eq_refl)
    as (w' & new & R & _ & _ & K & D).
  exists w'. split; [exact R|]. split; [|exact D].
  injection K as K _ _ _ _. exact K.
Defined.

Lemma forwarding_methods_witness :
  let steps :=
    [DoSetExperimentActive "exp1" "branch-a" None;
     DoSetUploadEnabled false; DoSetExperimentInactive "exp1";
     DoHandleClientActive] in
  let calls :=
    [EvCoreSetExperimentActive "exp1" "branch-a" ∅;
     EvCoreSetUploadEnabled false; EvCoreSetExperimentInactive "exp1";
     EvCoreHandleClientActive] in
  Forall2 (fun s e => forwarded s = Some e) steps calls /\
  let w :=
    session example_configuration example_core_sync
      (fun _ => Answered None) steps (process_start ∅) in
  map ev (trace w) = calls /\ glean w = Glean_class.
Proof.
  assert (P : Forall2 (fun s e => forwarded s = Some e)
                [DoSetExperimentActive "exp1" "branch-a" None;
                 DoSetUploadEnabled false; DoSetExperimentInactive "exp1";
                 DoHandleClientActive]
                [EvCoreSetExperimentActive "exp1" "branch-a" ∅;
                 EvCoreSetUploadEnabled false;
                 EvCoreSetExperimentInactive "exp1";
                 EvCoreHandleClientActive])
    by (repeat constructor).
  split; [exact P|].
  destruct (forwarding_methods example_configuration example_core_sync
              (fun _ => Answered None) _ _ (process_start ∅) P)
    as (new & T & M & _ & G & _).
  cbn zeta. rewrite T, G. split; [exact M|reflexivity].
Defined.
